(** * Nightwatch: guild API controller, premium lookup, entity constructors
      and OAuth credentials — a shallow embedding of the TypeScript sources.

    Layout: definitions first (one module per source file), then the
    properties.  JavaScript objects are finite maps from property names to
    values, [Object.assign] is a left-biased union, promises that reject are
    the [Threw] outcome of a small state-and-error monad. *)

From Stdlib Require Import ZArith String Ascii List.
From stdpp Require Import base option strings gmap list.

Local Open Scope Z_scope.

(* ===================================================================== *)
(** * Values and objects *)
(* ===================================================================== *)

(** The values an entity property can hold.  A [Date] is its epoch time in
    milliseconds; a relation (issuer, user, guild, role ...) is a reference
    to another object and is copied by reference. *)
Inductive Value : Type :=
| VUndefined
| VNull
| VNum (n : Z)
| VStr (s : string)
| VDate (ms : Z)
| VRef (addr : positive).

#[global] Instance Value_eq_dec : EqDecision Value.
Proof. solve_decision. Defined.

(** A plain object: own enumerable properties by name. *)
Abbreviation Obj := (gmap string Value).

(** [Object.assign(target, source)]: every own property of [source] is
    written onto [target]; properties only in [target] stay. *)
Definition Object_assign (target source : Obj) : Obj := source ∪ target.

(** Field equality of two instances. *)
Definition field_equal (a b : Obj) : Prop := ∀ k : string, a !! k = b !! k.

(** Every property of the snapshot is found, with its value, in the instance. *)
Definition copies_all_fields (s inst : Obj) : Prop :=
  ∀ (k : string) (v : Value), s !! k = Some v → inst !! k = Some v.

(* ===================================================================== *)
(** * src/db/entity/guild/guild-user-warning.ts, guild-user-kick.ts,
      referral.ts *)
(* ===================================================================== *)

Module Entity.

(** [new GuildUserWarning(guildUserWarning?)].  The class declares its
    properties without initialisers, so a fresh instance has none. *)
Definition new_GuildUserWarning (guildUserWarning : option Obj) : Obj :=
  match guildUserWarning with
  | Some s => Object_assign ∅ s
  | None => ∅
  end.

(** [new GuildUserKick(guildUserKick?)]. *)
Definition new_GuildUserKick (guildUserKick : option Obj) : Obj :=
  match guildUserKick with
  | Some s => Object_assign ∅ s
  | None => ∅
  end.

(** [new Referral(referral?)], run when the clock reads [now]:
    the snapshot is assigned first, then [this.dateCreated = new Date()]. *)
Definition new_Referral (now : Z) (referral : option Obj) : Obj :=
  let this :=
    match referral with
    | Some s => Object_assign ∅ s
    | None => ∅
    end in
  <["dateCreated" := VDate now]> this.

(** The three constructors behind one interface; the clock is read by
    [Referral] only. *)
Inductive EntityClass := GuildUserWarning | GuildUserKick | Referral.

Definition construct (c : EntityClass) (now : Z) (s : option Obj) : Obj :=
  match c with
  | GuildUserWarning => new_GuildUserWarning s
  | GuildUserKick => new_GuildUserKick s
  | Referral => new_Referral now s
  end.

(** The properties a constructor writes itself, after the copy. *)
Definition stamped (c : EntityClass) : list string :=
  match c with
  | Referral => ["dateCreated"]
  | GuildUserWarning | GuildUserKick => []
  end.

(** ** Storage declarations (TypeORM decorators) *)

Inductive Decorator :=
| PrimaryGeneratedColumn
| PrimaryColumn
| Column (sqlType : string)
| ManyToOne (target : string)
| JoinColumn
| Index (unique : bool)
| IsString
| IsDate.

#[global] Instance Decorator_eq_dec : EqDecision Decorator.
Proof. solve_decision. Defined.

Record Property := { prop_name : string; decorators : list Decorator }.

(** guild-user-warning.ts, the decorated properties in declaration order. *)
Definition GuildUserWarning_properties : list Property :=
  [ {| prop_name := "id"; decorators := [PrimaryGeneratedColumn] |};
    {| prop_name := "issuer";
       decorators := [ManyToOne "GuildUser"; JoinColumn] |};
    {| prop_name := "reason"; decorators := [Column "varchar"; IsString] |};
    {| prop_name := "timestamp";
       decorators := [Column "timestamp without time zone"; IsDate] |};
    {| prop_name := "user";
       decorators := [Index true; ManyToOne "GuildUser"; JoinColumn] |} ].

(** guild-user-kick.ts. *)
Definition GuildUserKick_properties : list Property :=
  [ {| prop_name := "id"; decorators := [PrimaryGeneratedColumn] |};
    {| prop_name := "issuer";
       decorators := [ManyToOne "GuildUser"; JoinColumn] |};
    {| prop_name := "reason"; decorators := [Column "varchar"; IsString] |};
    {| prop_name := "timestamp";
       decorators := [Column "timestamp without time zone"; IsDate] |};
    {| prop_name := "user";
       decorators := [Index true; ManyToOne "GuildUser"; JoinColumn] |} ].

(** The two moderation entities. *)
Inductive ModerationClass := Warning | Kick.

Definition moderation_properties (c : ModerationClass) : list Property :=
  match c with
  | Warning => GuildUserWarning_properties
  | Kick => GuildUserKick_properties
  end.

Definition has_unique_index (p : Property) : bool :=
  bool_decide (Index true ∈ decorators p).

(** A property-level [@Index] is an index on that one column: each unique
    index is the list of the columns it covers. *)
Definition unique_indexes (props : list Property) : list (list string) :=
  map (λ p, [prop_name p]) (filter (λ p, has_unique_index p = true) props).

(** ** The storage layer's enforcement of unique indexes.

    A moderation row; relations are stored by the id of the GuildUser
    they join to. *)
Record ModerationRecord := {
  rec_issuer : string;
  rec_reason : string;
  rec_timestamp : Z;
  rec_user : string
}.

Definition column (name : string) (r : ModerationRecord) : Value :=
  if decide (name = "issuer") then VStr (rec_issuer r)
  else if decide (name = "reason") then VStr (rec_reason r)
  else if decide (name = "timestamp") then VDate (rec_timestamp r)
  else if decide (name = "user") then VStr (rec_user r)
  else VUndefined.

(** Two rows collide on an index when they agree on all its columns. *)
Definition agree_on (cols : list string) (a b : ModerationRecord) : bool :=
  forallb (λ c, bool_decide (column c a = column c b)) cols.

Definition violates (idxs : list (list string))
    (table : list ModerationRecord) (r : ModerationRecord) : bool :=
  existsb (λ cols, existsb (agree_on cols r) table) idxs.

(** Insert under the declared unique indexes: [None] is the storage
    engine's unique-constraint rejection. *)
Definition insert_record (props : list Property)
    (table : list ModerationRecord) (r : ModerationRecord)
    : option (list ModerationRecord) :=
  if violates (unique_indexes props) table r then None
  else Some (table ++ [r]).

(** A run of inserts; rejected ones leave the table as it was. *)
Definition insert_all (props : list Property)
    (table : list ModerationRecord) (rs : list ModerationRecord)
    : list ModerationRecord :=
  fold_left (λ t r, default t (insert_record props t r)) rs table.

End Entity.

(* ===================================================================== *)
(** * A state-and-error monad for code that awaits and may throw *)
(* ===================================================================== *)

(** How a call ends: it returns a value, or it throws (a rejected promise
    under [await]). *)
Inductive Outcome (E A : Type) : Type :=
| Returned (a : A)
| Threw (e : E).
Arguments Returned {E A} a.
Arguments Threw {E A} e.

Definition is_returned {E A} (o : Outcome E A) : bool :=
  match o with Returned _ => true | Threw _ => false end.

(** A computation over a state [S] that may throw an [E]; what was done to
    the state before a throw stays done. *)
Definition M (S E A : Type) : Type := S → Outcome E A * S.

Definition ret {S E A} (a : A) : M S E A := λ s, (Returned a, s).

Definition bind {S E A B} (m : M S E A) (k : A → M S E B) : M S E B :=
  λ s, match m s with
       | (Returned a, s') => k a s'
       | (Threw e, s') => (Threw e, s')
       end.

Definition throw {S E A} (e : E) : M S E A := λ s, (Threw e, s).

(** [try { m } catch (err) { h err }]. *)
Definition try_catch {S E A} (m : M S E A) (h : E → M S E A) : M S E A :=
  λ s, match m s with
       | (Returned a, s') => (Returned a, s')
       | (Threw e, s') => h e s'
       end.

(** [await m]: the caller goes on once [m] has settled, and a rejection is
    rethrown at the [await]; for one request run on its own this is [m]. *)
Definition await {S E A} (m : M S E A) : M S E A := m.

Declare Scope js_scope.
Delimit Scope js_scope with js.
Notation "x <- m ;; k" := (bind m (λ x, k))
  (at level 100, m at next level, right associativity) : js_scope.
Notation "m ;; k" := (bind m (λ _, k))
  (at level 100, right associativity) : js_scope.

(** JavaScript truthiness of a string that may be [undefined]. *)
Definition truthy (v : option string) : bool :=
  match v with
  | Some s => negb (bool_decide (s = EmptyString))
  | None => false
  end.

(* ===================================================================== *)
(** * src/bot/controllers/user.ts *)
(* ===================================================================== *)

Module UserController.

(** [config.optional.premium] of config.json; each key may be missing. *)
Record PremiumConfig := {
  premiumPatreonRoleId : option string;
  primaryGuildId : option string
}.

Record Config := { optional_premium : option PremiumConfig }.

(** What the method reads of the chat-platform client. *)
Record GuildMember := { roles : gset string }.

Record DiscordGuild := { members : gmap string GuildMember }.

Record CommandoClient := {
  guilds : gmap string DiscordGuild;
  isOwner : string → bool
}.

(** [getPremiumUsers(client)]: [None] is the bare [return]. *)
Definition getPremiumUsers (config : Config) (client : CommandoClient)
    : option (gmap string GuildMember) :=
  match optional_premium config with
  | None => None
  | Some premium =>
    if negb (truthy (premiumPatreonRoleId premium))
       || negb (truthy (primaryGuildId premium))
    then None
    else
      match guilds client !! default EmptyString (primaryGuildId premium) with
      | None => None
      | Some guild =>
        Some (filter
                (λ kv, default EmptyString (premiumPatreonRoleId premium) ∈ roles kv.2)
                (members guild))
      end
  end.

(** [userHasPremium(id, client)].  Past the guard both ids are non-empty
    strings, so [default] never falls back there. *)
Definition userHasPremium (config : Config) (id : string)
    (client : CommandoClient) : bool :=
  match optional_premium config with
  | None => false
  | Some premium =>
    if negb (truthy (premiumPatreonRoleId premium))
       || negb (truthy (primaryGuildId premium))
    then false
    else
      match guilds client !! default EmptyString (primaryGuildId premium) with
      | None => false
      | Some guild =>
        match members guild !! id with
        | None => false
        | Some member =>
          if isOwner client id then true
          else bool_decide
                 (default EmptyString (premiumPatreonRoleId premium) ∈ roles member)
        end
      end
  end.

(** The ways premium is unavailable to [id]: the configuration lacks a
    usable role id or guild id, the primary guild is not cached, the id is
    not one of its members. *)
Definition premium_config_absent (config : Config) : Prop :=
  match optional_premium config with
  | None => True
  | Some premium =>
    truthy (premiumPatreonRoleId premium) = false
    ∨ truthy (primaryGuildId premium) = false
  end.

Definition primary_guild (config : Config) (client : CommandoClient)
    : option DiscordGuild :=
  premium ← optional_premium config;
  gid ← primaryGuildId premium;
  guilds client !! gid.

Definition is_primary_member (config : Config) (client : CommandoClient)
    (id : string) : Prop :=
  ∃ guild member,
    primary_guild config client = Some guild ∧ members guild !! id = Some member.

End UserController.

(* ===================================================================== *)
(** * src/api/src/services/authentication.ts *)
(* ===================================================================== *)

Module Authentication.

(** [config.bot] of config.json; either key may be missing. *)
Record BotConfig := {
  bot_clientSecret : option string;
  bot_clientId : option string
}.

Record Config := { bot : option BotConfig }.

(** What a statement of the module body can throw. *)
Inductive JsError :=
| CannotFindModule (path : string)
| CannotDestructure
| AssignmentToConstant (name : string)
| NotDefined (name : string).

(** A module-scope binding: how it was declared and what it holds
    ([None] is [undefined]). *)
Record Binding := { is_const : bool; held : option string }.

(** Module scope and what [console.error] has printed. *)
Record ModuleState := {
  scope : gmap string Binding;
  console : list JsError
}.

Abbreviation Js := (M ModuleState JsError).

(** [const x = v]. *)
Definition declare_const (x : string) (v : string) : Js unit :=
  λ st, (Returned (),
         {| scope := <[x := {| is_const := true; held := Some v |}]> (scope st);
            console := console st |}).

(** [x = v]: assigning to a [const] binding throws a TypeError. *)
Definition assign (x : string) (v : option string) : Js unit :=
  λ st, match scope st !! x with
        | None => (Threw (NotDefined x), st)
        | Some b =>
          if is_const b then (Threw (AssignmentToConstant x), st)
          else (Returned (),
                {| scope := <[x := {| is_const := false; held := v |}]> (scope st);
                   console := console st |})
        end.

(** [require(path)] of a JSON file: [None] when it cannot be loaded. *)
Definition require (path : string) (file : option Config) : Js Config :=
  match file with
  | Some c => ret c
  | None => throw (CannotFindModule path)
  end.

(** [const { clientSecret: a, clientId: b } = config.bot]. *)
Definition destructure_bot (config : Config)
    : Js (option string * option string) :=
  match bot config with
  | Some b => ret (bot_clientSecret b, bot_clientId b)
  | None => throw CannotDestructure
  end.

Definition console_error (err : JsError) : Js unit :=
  λ st, (Returned (), {| scope := scope st; console := console st ++ [err] |}).

Definition config_path : string := "../../../../config/config.json".

(** The module body, lines 6 to 19, run once at load time against the
    config file found on disk. *)
Definition module_body (file : option Config) : Js unit :=
  (declare_const "clientSecret" EmptyString ;;
   declare_const "clientId" EmptyString ;;
   try_catch
     (config <- require config_path file ;;
      locals <- destructure_bot config ;;
      assign "clientSecret" locals.1 ;;
      assign "clientId" locals.2)
     (λ err, console_error err))%js.

Definition load_module (file : option Config) : ModuleState :=
  (module_body file {| scope := ∅; console := [] |}).2.

(** The scope after the two [const] declarations. *)
Definition declared : ModuleState :=
  {| scope := <["clientId" := {| is_const := true; held := Some EmptyString |}]>
                (<["clientSecret" := {| is_const := true; held := Some EmptyString |}]> ∅);
     console := [] |}.

(** Reading a binding inside a template literal. *)
Definition interpolate (st : ModuleState) (x : string) : string :=
  match scope st !! x with
  | Some b => default "undefined" (held b)
  | None => "undefined"
  end.

(** ** Base64 ([Buffer.from(s).toString('base64')]), RFC 4648 with padding *)

Definition base64_alphabet : string :=
  "ABCDEFGHIJKLMNOPQRSTUVWXYZabcdefghijklmnopqrstuvwxyz0123456789+/".

Definition base64_digit (n : N) : ascii :=
  default "="%char (String.get (N.to_nat n) base64_alphabet).

Definition sextet (n : N) (k : N) : ascii :=
  base64_digit (N.land (N.shiftr n (6 * k)) 63).

Fixpoint base64_bytes (bs : list N) : string :=
  match bs with
  | [] => EmptyString
  | [a] =>
    let n := N.shiftl a 16 in
    String (sextet n 3) (String (sextet n 2) "==")
  | [a; b] =>
    let n := N.lor (N.shiftl a 16) (N.shiftl b 8) in
    String (sextet n 3) (String (sextet n 2) (String (sextet n 1) "="))
  | a :: b :: c :: rest =>
    let n := N.lor (N.lor (N.shiftl a 16) (N.shiftl b 8)) c in
    String (sextet n 3) (String (sextet n 2)
      (String (sextet n 1) (String (sextet n 0) (base64_bytes rest))))
  end.

Definition base64 (s : string) : string :=
  base64_bytes (map N_of_ascii (list_ascii_of_string s)).

(** The request [axios.post(url, null, { headers })] sends. *)
Record HttpRequest := {
  url : string;
  authorization : string
}.

(** [getDiscordAccessToken(code, redirect)], up to the request it issues;
    the reply is the provider's. *)
Definition getDiscordAccessToken (st : ModuleState) (code redirect : string)
    : HttpRequest :=
  let creds :=
    base64 (interpolate st "clientId" +:+ ":" +:+ interpolate st "clientSecret") in
  {| url :=
       "https://discordapp.com/api/oauth2/token?grant_type=authorization_code&code="
       +:+ code +:+ "&redirect_uri=" +:+ redirect;
     authorization := "Basic " +:+ creds |}.

End Authentication.

(* ===================================================================== *)
(** * The guild controller: class GuildController, routes under /api/guilds *)
(* ===================================================================== *)

(** The entity classes the controller passes around.  It reads one
    property of one of them, [selfAssignableRole.roleId]; the rest it hands
    on untouched. *)
Class Entities := {
  Guild : Type;
  GuildSettings : Type;
  GuildUser : Type;
  GuildSuggestion : Type;
  GuildSupportTicket : Type;
  GuildSelfAssignableRole : Type;
  Song : Type;
  roleId : GuildSelfAssignableRole → string
}.

(** The error taxonomy a service call can reject with. *)
Inductive ServiceError :=
| NotFoundError
| ConflictError
| ValidationError
| StorageError.

#[global] Instance ServiceError_eq_dec : EqDecision ServiceError.
Proof. solve_decision. Defined.

(** The methods of [GuildService] the controller calls. *)
Inductive ServiceMethod :=
| s_find | s_findById | s_create | s_delete | s_update
| s_findSuggestions | s_findSuggestionById | s_createSuggestion
| s_updateSuggestion | s_deleteSuggestion
| s_findSupportTickets | s_findSupportTicketById | s_createSupportTicket
| s_updateSupportTicket | s_deleteSupportTicket
| s_findSettings | s_updateSettings
| s_findUsers | s_findUserById | s_createUser | s_updateUser | s_deleteUser
| s_findSelfAssignableRoles | s_findSelfAssignableRole
| s_createSelfAssignableRole | s_deleteSelfAssignableRole
| s_findPlaylist | s_createSong | s_clearPlaylist
| s_findPlaylistSongsByUserId | s_deleteSongsByUserId | s_deleteSong.

#[global] Instance ServiceMethod_eq_dec : EqDecision ServiceMethod.
Proof. solve_decision. Defined.

(** A service call: it reads and writes the store and resolves or rejects. *)
Abbreviation Svc Store A := (Store → Outcome ServiceError A * Store).

(** [GuildService] as the controller sees it (the injected dependency). *)
Module GuildService.
Section Interface.
Context `{Entities} {Store : Type}.

Record Interface := {
  find : Svc Store (list Guild);
  findById : string → Svc Store (option Guild);
  create : Guild → Svc Store unit;
  delete : string → Svc Store unit;
  update : string → Guild → Svc Store unit;
  findSuggestions : string → Svc Store (list GuildSuggestion);
  findSuggestionById : string → Z → Svc Store (option GuildSuggestion);
  createSuggestion : string → GuildSuggestion → Svc Store GuildSuggestion;
  updateSuggestion : string → Z → GuildSuggestion → Svc Store unit;
  deleteSuggestion : string → Z → Svc Store unit;
  findSupportTickets : string → Svc Store (list GuildSupportTicket);
  findSupportTicketById : string → Z → Svc Store (option GuildSupportTicket);
  createSupportTicket :
    string → GuildSupportTicket → Svc Store GuildSupportTicket;
  updateSupportTicket : string → Z → GuildSupportTicket → Svc Store unit;
  deleteSupportTicket : string → Z → Svc Store unit;
  findSettings : string → Svc Store (option GuildSettings);
  updateSettings : string → GuildSettings → Svc Store unit;
  findUsers : string → Svc Store (list GuildUser);
  findUserById : string → string → Svc Store (option GuildUser);
  createUser : string → GuildUser → Svc Store unit;
  updateUser : string → string → GuildUser → Svc Store unit;
  deleteUser : string → string → Svc Store unit;
  findSelfAssignableRoles : string → Svc Store (list GuildSelfAssignableRole);
  findSelfAssignableRole :
    string → string → Svc Store (option GuildSelfAssignableRole);
  createSelfAssignableRole : string → GuildSelfAssignableRole → Svc Store unit;
  deleteSelfAssignableRole : string → string → Svc Store unit;
  findPlaylist : string → Svc Store (list Song);
  createSong : string → Song → Svc Store Song;
  clearPlaylist : string → Svc Store unit;
  findPlaylistSongsByUserId : string → string → Svc Store (list Song);
  deleteSongsByUserId : string → string → Svc Store unit;
  deleteSong : string → Z → Svc Store unit
}.

End Interface.
Arguments Interface {_} Store.
End GuildService.

(** The event names of constants/events the controller uses. *)
Inductive EventName :=
| GUILD_CREATE | GUILD_DELETE | GUILD_UPDATE
| GUILD_SUGGESTION_CREATE | GUILD_SUGGESTION_UPDATE | GUILD_SUGGESTION_DELETE
| GUILD_SUPPORT_TICKET_CREATE | GUILD_SUPPORT_TICKET_UPDATE
| GUILD_SUPPORT_TICKET_DELETE
| GUILD_SETTINGS_UPDATE
| GUILD_USER_CREATE | GUILD_USER_UPDATE | GUILD_USER_DELETE.

(** What is sent along with an event. *)
Inductive Payload `{Entities} :=
| P_guild (guild : Guild)
| P_id (id : string)
| P_suggestion (suggestion : GuildSuggestion)
| P_suggestionKey (guildId : string) (suggestionId : Z)
| P_supportTicket (supportTicket : GuildSupportTicket)
| P_ticketKey (guildId : string) (ticketId : Z)
| P_settings (settings : GuildSettings)
| P_user (user : GuildUser)
| P_userKey (guildId : string) (userId : string).

(** What a request does that the outside can see, in the order it is done:
    service calls with how they ended, events handed to the socket service,
    status codes written on the response. *)
Inductive Effect `{Entities} :=
| Called (method : ServiceMethod) (resolved : bool)
| Emitted (name : EventName) (payload : Payload)
| StatusSent (code : Z).

Record World `{Entities} (Store : Type) := {
  store : Store;
  trace : list Effect
}.
Arguments store {_ _} w.
Arguments trace {_ _} w.

(** The events of a trace, oldest first. *)
Definition events `{Entities} (t : list Effect) : list (EventName * Payload) :=
  omap (λ e, match e with Emitted n p => Some (n, p) | _ => None end) t.

(** The status codes written, oldest first. *)
Definition statuses `{Entities} (t : list Effect) : list Z :=
  omap (λ e, match e with StatusSent c => Some c | _ => None end) t.

(** The service methods called, oldest first. *)
Definition calls `{Entities} (t : list Effect) : list ServiceMethod :=
  omap (λ e, match e with Called m _ => Some m | _ => None end) t.

Module GuildController.
Section Controller.
Context `{Entities} {Store : Type}.

(** The injected [guildService]. *)
Variable guildService : GuildService.Interface Store.

(** A controller method: it runs against the store and leaves a trace. *)
Abbreviation Ctl A := (M (World Store) ServiceError A).

Local Open Scope js_scope.

(** [this.guildService.method(...)]: the call is run on the store and
    noted in the trace with how it ended. *)
Definition call {A} (method : ServiceMethod) (f : Svc Store A) : Ctl A :=
  λ w, let r := f (store w) in
       (r.1, {| store := r.2;
                trace := trace w ++ [Called method (is_returned r.1)] |}).

(** Modelled from the spec: [SocketService.send] (services/socket is not
    among the sources).  It hands one event to the notifier and returns;
    publish failures are swallowed at the notifier boundary, so it does not
    throw. *)
Definition socketService_send (name : EventName) (payload : Payload)
    : Ctl unit :=
  λ w, (Returned (),
        {| store := store w; trace := trace w ++ [Emitted name payload] |}).

(** [res.sendStatus(code)]. *)
Definition res_sendStatus (code : Z) : Ctl unit :=
  λ w, (Returned (),
        {| store := store w; trace := trace w ++ [StatusSent code] |}).

(** GET / *)
Definition find : Ctl (list Guild) :=
  call s_find (GuildService.find guildService).

(** GET /:id *)
Definition findById (id : string) : Ctl (option Guild) :=
  guild <- await (call s_findById (GuildService.findById guildService id)) ;;
  match guild with
  | None => res_sendStatus 404
  | Some _ => ret ()
  end ;;
  ret guild.

(** POST / *)
Definition create (guild : Guild) : Ctl unit :=
  await (call s_create (GuildService.create guildService guild)) ;;
  socketService_send GUILD_CREATE (P_guild guild).

(** DELETE /:id *)
Definition deleteById (id : string) : Ctl unit :=
  await (call s_delete (GuildService.delete guildService id)) ;;
  socketService_send GUILD_DELETE (P_id id).

(** PUT /:id *)
Definition updateById (id : string) (guild : Guild) : Ctl unit :=
  await (call s_update (GuildService.update guildService id guild)) ;;
  socketService_send GUILD_UPDATE (P_guild guild).

(** GET /:id/suggestions *)
Definition findSuggestions (id : string) : Ctl (list GuildSuggestion) :=
  call s_findSuggestions (GuildService.findSuggestions guildService id).

(** GET /:id/suggestions/:suggestionId *)
Definition findSuggestionById (id : string) (suggestionId : Z)
    : Ctl (option GuildSuggestion) :=
  call s_findSuggestionById
    (GuildService.findSuggestionById guildService id suggestionId).

(** POST /:id/suggestions *)
Definition createSuggestion (id : string) (suggestion : GuildSuggestion)
    : Ctl GuildSuggestion :=
  ticket <- await (call s_createSuggestion
              (GuildService.createSuggestion guildService id suggestion)) ;;
  socketService_send GUILD_SUGGESTION_CREATE (P_suggestion suggestion) ;;
  ret ticket.

(** PUT /:id/suggestions/:suggestionId *)
Definition updateSuggestionById (id : string) (suggestionId : Z)
    (suggestion : GuildSuggestion) : Ctl unit :=
  await (call s_updateSuggestion
    (GuildService.updateSuggestion guildService id suggestionId suggestion)) ;;
  socketService_send GUILD_SUGGESTION_UPDATE (P_suggestion suggestion).

(** DELETE /:id/suggestions/:suggestionId *)
Definition deleteSuggestionById (id : string) (suggestionId : Z) : Ctl unit :=
  await (call s_deleteSuggestion
    (GuildService.deleteSuggestion guildService id suggestionId)) ;;
  socketService_send GUILD_SUGGESTION_DELETE (P_suggestionKey id suggestionId).

(** GET /:id/support-tickets *)
Definition findSupportTickets (id : string) : Ctl (list GuildSupportTicket) :=
  call s_findSupportTickets (GuildService.findSupportTickets guildService id).

(** GET /:id/support-tickets/:ticketId *)
Definition findSupportTicketById (id : string) (ticketId : Z)
    : Ctl (option GuildSupportTicket) :=
  call s_findSupportTicketById
    (GuildService.findSupportTicketById guildService id ticketId).

(** POST /:id/support-tickets *)
Definition createSupportTicket (id : string)
    (supportTicket : GuildSupportTicket) : Ctl GuildSupportTicket :=
  ticket <- await (call s_createSupportTicket
              (GuildService.createSupportTicket guildService id supportTicket)) ;;
  socketService_send GUILD_SUPPORT_TICKET_CREATE
    (P_supportTicket supportTicket) ;;
  ret ticket.

(** PUT /:id/support-tickets/:ticketId *)
Definition updateSupportTicketById (id : string) (ticketId : Z)
    (supportTicket : GuildSupportTicket) : Ctl unit :=
  await (call s_updateSupportTicket
    (GuildService.updateSupportTicket guildService id ticketId supportTicket)) ;;
  socketService_send GUILD_SUPPORT_TICKET_UPDATE
    (P_supportTicket supportTicket).

(** DELETE /:id/support-tickets/:ticketId *)
Definition deleteSupportTicketById (id : string) (ticketId : Z) : Ctl unit :=
  await (call s_deleteSupportTicket
    (GuildService.deleteSupportTicket guildService id ticketId)) ;;
  socketService_send GUILD_SUPPORT_TICKET_DELETE (P_ticketKey id ticketId).

(** GET /:id/settings *)
Definition findSettingsById (id : string) : Ctl (option GuildSettings) :=
  call s_findSettings (GuildService.findSettings guildService id).

(** PUT /:id/settings *)
Definition updateSettingsById (id : string) (settings : GuildSettings)
    : Ctl unit :=
  await (call s_updateSettings
    (GuildService.updateSettings guildService id settings)) ;;
  socketService_send GUILD_SETTINGS_UPDATE (P_settings settings).

(** GET /:id/users *)
Definition findUsers (id : string) : Ctl (list GuildUser) :=
  call s_findUsers (GuildService.findUsers guildService id).

(** GET /:id/users/:userId *)
Definition findUserById (id userId : string) : Ctl (option GuildUser) :=
  call s_findUserById (GuildService.findUserById guildService id userId).

(** POST /:id/users *)
Definition createUser (id : string) (user : GuildUser) : Ctl unit :=
  await (call s_createUser (GuildService.createUser guildService id user)) ;;
  socketService_send GUILD_USER_CREATE (P_user user).

(** PUT /:id/users/:userId *)
Definition updateUserById (id userId : string) (user : GuildUser) : Ctl unit :=
  await (call s_updateUser
    (GuildService.updateUser guildService id userId user)) ;;
  socketService_send GUILD_USER_UPDATE (P_user user).

(** DELETE /:id/users/:userId *)
Definition deleteUserById (id userId : string) : Ctl unit :=
  await (call s_deleteUser (GuildService.deleteUser guildService id userId)) ;;
  socketService_send GUILD_USER_DELETE (P_userKey id userId).

(** GET /:id/self-assignable-roles *)
Definition findSelfAssignableRoles (id : string)
    : Ctl (list GuildSelfAssignableRole) :=
  call s_findSelfAssignableRoles
    (GuildService.findSelfAssignableRoles guildService id).

(** GET /:id/self-assignable-roles/:roleId *)
Definition findSelfAssignableRole (id roleId : string)
    : Ctl (option GuildSelfAssignableRole) :=
  call s_findSelfAssignableRole
    (GuildService.findSelfAssignableRole guildService id roleId).

(** POST /:id/self-assignable-roles *)
Definition createSelfAssignableRole (id : string)
    (selfAssignableRole : GuildSelfAssignableRole) : Ctl unit :=
  existingAssignableRole <-
    await (findSelfAssignableRole id (roleId selfAssignableRole)) ;;
  match existingAssignableRole with
  | Some _ => res_sendStatus 409
  | None =>
    call s_createSelfAssignableRole
      (GuildService.createSelfAssignableRole guildService id selfAssignableRole)
  end.

(** DELETE /:id/self-assignable-roles/:roleId *)
Definition deleteSelfAssignableRole (id roleId : string) : Ctl unit :=
  await (call s_deleteSelfAssignableRole
    (GuildService.deleteSelfAssignableRole guildService id roleId)).

(** GET /:id/playlist *)
Definition findPlaylist (id : string) : Ctl (list Song) :=
  call s_findPlaylist (GuildService.findPlaylist guildService id).

(** POST /:id/playlist *)
Definition createSong (id : string) (song : Song) : Ctl Song :=
  call s_createSong (GuildService.createSong guildService id song).

(** DELETE /:id/playlist *)
Definition clearPlaylist (id : string) : Ctl unit :=
  call s_clearPlaylist (GuildService.clearPlaylist guildService id).

(** GET /:id/playlist/user/:userId *)
Definition findSongsByUserId (id userId : string) : Ctl (list Song) :=
  call s_findPlaylistSongsByUserId
    (GuildService.findPlaylistSongsByUserId guildService id userId).

(** DELETE /:id/playlist/user/:userId *)
Definition deleteSongsByUserId (id userId : string) : Ctl unit :=
  call s_deleteSongsByUserId
    (GuildService.deleteSongsByUserId guildService id userId).

(** DELETE /:id/playlist/:songId *)
Definition deleteSongById (id : string) (songId : Z) : Ctl unit :=
  call s_deleteSong (GuildService.deleteSong guildService id songId).

End Controller.
End GuildController.

(** ** The mutation routes of the controller *)

(** The aggregates of the REST surface. *)
Inductive Aggregate :=
| Guilds | Suggestions | SupportTickets | Settings | Users
| SelfAssignableRoles | PlaylistSongs.

#[global] Instance Aggregate_eq_dec : EqDecision Aggregate.
Proof. solve_decision. Defined.

(** One request per POST, PUT and DELETE route, with its parameters and
    body. *)
Inductive Mutation `{Entities} :=
| POST_guild (guild : Guild)
| DELETE_guild (id : string)
| PUT_guild (id : string) (guild : Guild)
| POST_suggestion (id : string) (suggestion : GuildSuggestion)
| PUT_suggestion (id : string) (suggestionId : Z) (suggestion : GuildSuggestion)
| DELETE_suggestion (id : string) (suggestionId : Z)
| POST_supportTicket (id : string) (supportTicket : GuildSupportTicket)
| PUT_supportTicket (id : string) (ticketId : Z)
    (supportTicket : GuildSupportTicket)
| DELETE_supportTicket (id : string) (ticketId : Z)
| PUT_settings (id : string) (settings : GuildSettings)
| POST_user (id : string) (user : GuildUser)
| PUT_user (id userId : string) (user : GuildUser)
| DELETE_user (id userId : string)
| POST_selfAssignableRole (id : string)
    (selfAssignableRole : GuildSelfAssignableRole)
| DELETE_selfAssignableRole (id roleId : string)
| POST_song (id : string) (song : Song)
| DELETE_playlist (id : string)
| DELETE_songsByUser (id userId : string)
| DELETE_song (id : string) (songId : Z).

Section Routes.
Context `{Entities} {Store : Type}.
Variable guildService : GuildService.Interface Store.

(** Run a method for its effects. *)
Definition void {A} (m : M (World Store) ServiceError A)
    : M (World Store) ServiceError unit :=
  bind m (λ _, ret ()).

(** The routing table: which method serves which request. *)
Definition dispatch (m : Mutation) : M (World Store) ServiceError unit :=
  match m with
  | POST_guild guild => GuildController.create guildService guild
  | DELETE_guild id => GuildController.deleteById guildService id
  | PUT_guild id guild => GuildController.updateById guildService id guild
  | POST_suggestion id s =>
    void (GuildController.createSuggestion guildService id s)
  | PUT_suggestion id sid s =>
    GuildController.updateSuggestionById guildService id sid s
  | DELETE_suggestion id sid =>
    GuildController.deleteSuggestionById guildService id sid
  | POST_supportTicket id t =>
    void (GuildController.createSupportTicket guildService id t)
  | PUT_supportTicket id tid t =>
    GuildController.updateSupportTicketById guildService id tid t
  | DELETE_supportTicket id tid =>
    GuildController.deleteSupportTicketById guildService id tid
  | PUT_settings id s => GuildController.updateSettingsById guildService id s
  | POST_user id u => GuildController.createUser guildService id u
  | PUT_user id uid u => GuildController.updateUserById guildService id uid u
  | DELETE_user id uid => GuildController.deleteUserById guildService id uid
  | POST_selfAssignableRole id r =>
    GuildController.createSelfAssignableRole guildService id r
  | DELETE_selfAssignableRole id rid =>
    GuildController.deleteSelfAssignableRole guildService id rid
  | POST_song id song => void (GuildController.createSong guildService id song)
  | DELETE_playlist id => GuildController.clearPlaylist guildService id
  | DELETE_songsByUser id uid =>
    GuildController.deleteSongsByUserId guildService id uid
  | DELETE_song id sid => GuildController.deleteSongById guildService id sid
  end.

(** Forget what a service call resolves to. *)
Definition forget {A} (f : Svc Store A) : Svc Store unit :=
  λ s, let r := f s in
       (match r.1 with Returned _ => Returned () | Threw e => Threw e end, r.2).

(** The service call that commits a request's change, with its name. *)
Definition commit (m : Mutation) : ServiceMethod * Svc Store unit :=
  match m with
  | POST_guild guild => (s_create, GuildService.create guildService guild)
  | DELETE_guild id => (s_delete, GuildService.delete guildService id)
  | PUT_guild id guild => (s_update, GuildService.update guildService id guild)
  | POST_suggestion id s =>
    (s_createSuggestion, forget (GuildService.createSuggestion guildService id s))
  | PUT_suggestion id sid s =>
    (s_updateSuggestion, GuildService.updateSuggestion guildService id sid s)
  | DELETE_suggestion id sid =>
    (s_deleteSuggestion, GuildService.deleteSuggestion guildService id sid)
  | POST_supportTicket id t =>
    (s_createSupportTicket,
     forget (GuildService.createSupportTicket guildService id t))
  | PUT_supportTicket id tid t =>
    (s_updateSupportTicket,
     GuildService.updateSupportTicket guildService id tid t)
  | DELETE_supportTicket id tid =>
    (s_deleteSupportTicket, GuildService.deleteSupportTicket guildService id tid)
  | PUT_settings id s =>
    (s_updateSettings, GuildService.updateSettings guildService id s)
  | POST_user id u => (s_createUser, GuildService.createUser guildService id u)
  | PUT_user id uid u =>
    (s_updateUser, GuildService.updateUser guildService id uid u)
  | DELETE_user id uid =>
    (s_deleteUser, GuildService.deleteUser guildService id uid)
  | POST_selfAssignableRole id r =>
    (s_createSelfAssignableRole,
     GuildService.createSelfAssignableRole guildService id r)
  | DELETE_selfAssignableRole id rid =>
    (s_deleteSelfAssignableRole,
     GuildService.deleteSelfAssignableRole guildService id rid)
  | POST_song id song =>
    (s_createSong, forget (GuildService.createSong guildService id song))
  | DELETE_playlist id =>
    (s_clearPlaylist, GuildService.clearPlaylist guildService id)
  | DELETE_songsByUser id uid =>
    (s_deleteSongsByUserId, GuildService.deleteSongsByUserId guildService id uid)
  | DELETE_song id sid =>
    (s_deleteSong, GuildService.deleteSong guildService id sid)
  end.

End Routes.

Section Tables.
Context `{Entities}.

Definition aggregate (m : Mutation) : Aggregate :=
  match m with
  | POST_guild _ | DELETE_guild _ | PUT_guild _ _ => Guilds
  | POST_suggestion _ _ | PUT_suggestion _ _ _ | DELETE_suggestion _ _ =>
    Suggestions
  | POST_supportTicket _ _ | PUT_supportTicket _ _ _
  | DELETE_supportTicket _ _ => SupportTickets
  | PUT_settings _ _ => Settings
  | POST_user _ _ | PUT_user _ _ _ | DELETE_user _ _ => Users
  | POST_selfAssignableRole _ _ | DELETE_selfAssignableRole _ _ =>
    SelfAssignableRoles
  | POST_song _ _ | DELETE_playlist _ | DELETE_songsByUser _ _
  | DELETE_song _ _ => PlaylistSongs
  end.

(** The aggregates whose routes hand an event to the socket service. *)
Definition notifying (a : Aggregate) : bool :=
  match a with
  | SelfAssignableRoles | PlaylistSongs => false
  | _ => true
  end.

(** The event of a request: the request body on create and update, the id
    or the composite key on delete. *)
Definition notification (m : Mutation) : option (EventName * Payload) :=
  match m with
  | POST_guild guild => Some (GUILD_CREATE, P_guild guild)
  | DELETE_guild id => Some (GUILD_DELETE, P_id id)
  | PUT_guild _ guild => Some (GUILD_UPDATE, P_guild guild)
  | POST_suggestion _ s => Some (GUILD_SUGGESTION_CREATE, P_suggestion s)
  | PUT_suggestion _ _ s => Some (GUILD_SUGGESTION_UPDATE, P_suggestion s)
  | DELETE_suggestion id sid =>
    Some (GUILD_SUGGESTION_DELETE, P_suggestionKey id sid)
  | POST_supportTicket _ t =>
    Some (GUILD_SUPPORT_TICKET_CREATE, P_supportTicket t)
  | PUT_supportTicket _ _ t =>
    Some (GUILD_SUPPORT_TICKET_UPDATE, P_supportTicket t)
  | DELETE_supportTicket id tid =>
    Some (GUILD_SUPPORT_TICKET_DELETE, P_ticketKey id tid)
  | PUT_settings _ s => Some (GUILD_SETTINGS_UPDATE, P_settings s)
  | POST_user _ u => Some (GUILD_USER_CREATE, P_user u)
  | PUT_user _ _ u => Some (GUILD_USER_UPDATE, P_user u)
  | DELETE_user id uid => Some (GUILD_USER_DELETE, P_userKey id uid)
  | POST_selfAssignableRole _ _ | DELETE_selfAssignableRole _ _
  | POST_song _ _ | DELETE_playlist _ | DELETE_songsByUser _ _
  | DELETE_song _ _ => None
  end.

End Tables.

(* ===================================================================== *)
(** * The guild service and the entities it stores *)
(* ===================================================================== *)

Module SpecService.

(** Modelled from the spec: the entity classes Guild, GuildSettings,
    GuildUser, GuildSuggestion, GuildSupportTicket, GuildSelfAssignableRole
    and Song (db/entity is not among the sources beyond the moderation
    records and Referral).  Each carries the key attributes of the data
    model, section 3; an auto id is absent until the row is inserted; the
    owning guild of a child is the guild id its row is stored under; a
    song's position is its place in insertion order. *)
Record SGuild := { guild_id : string; guild_settings : Obj }.

Record SUser := { user_id : string }.

Record SSuggestion := {
  suggestion_id : option Z;
  suggestion_content : string;
  suggestion_status : string;
  suggestion_author : string
}.

Record SSupportTicket := {
  ticket_id : option Z;
  ticket_content : string;
  ticket_status : string
}.

Record SRole := { role_roleId : string }.

Record SSong := { song_id : option Z; song_requestedBy : string }.

#[global] Instance SGuild_eq_dec : EqDecision SGuild.
Proof. solve_decision. Defined.
#[global] Instance SUser_eq_dec : EqDecision SUser.
Proof. solve_decision. Defined.
#[global] Instance SSuggestion_eq_dec : EqDecision SSuggestion.
Proof. solve_decision. Defined.
#[global] Instance SSupportTicket_eq_dec : EqDecision SSupportTicket.
Proof. solve_decision. Defined.
#[global] Instance SRole_eq_dec : EqDecision SRole.
Proof. solve_decision. Defined.
#[global] Instance SSong_eq_dec : EqDecision SSong.
Proof. solve_decision. Defined.

#[global] Instance entities : Entities := {|
  Guild := SGuild;
  GuildSettings := Obj;
  GuildUser := SUser;
  GuildSuggestion := SSuggestion;
  GuildSupportTicket := SSupportTicket;
  GuildSelfAssignableRole := SRole;
  Song := SSong;
  roleId := role_roleId
|}.

(** Modelled from the spec: the relational store, one table per aggregate;
    a child row is kept with the id of the guild that owns it, in insertion
    order; [next_id] is the sequence auto ids are drawn from. *)
Record Store := {
  guilds : list SGuild;
  users : list (string * SUser);
  suggestions : list (string * SSuggestion);
  tickets : list (string * SSupportTicket);
  roles : list (string * SRole);
  songs : list (string * SSong);
  next_id : Z
}.

Definition set_guilds (s : Store) (v : list SGuild) : Store :=
  {| guilds := v; users := users s; suggestions := suggestions s;
     tickets := tickets s; roles := roles s; songs := songs s;
     next_id := next_id s |}.
Definition set_users (s : Store) (v : list (string * SUser)) : Store :=
  {| guilds := guilds s; users := v; suggestions := suggestions s;
     tickets := tickets s; roles := roles s; songs := songs s;
     next_id := next_id s |}.
Definition set_suggestions (s : Store) (v : list (string * SSuggestion))
    : Store :=
  {| guilds := guilds s; users := users s; suggestions := v;
     tickets := tickets s; roles := roles s; songs := songs s;
     next_id := next_id s |}.
Definition set_tickets (s : Store) (v : list (string * SSupportTicket))
    : Store :=
  {| guilds := guilds s; users := users s; suggestions := suggestions s;
     tickets := v; roles := roles s; songs := songs s;
     next_id := next_id s |}.
Definition set_roles (s : Store) (v : list (string * SRole)) : Store :=
  {| guilds := guilds s; users := users s; suggestions := suggestions s;
     tickets := tickets s; roles := v; songs := songs s;
     next_id := next_id s |}.
Definition set_songs (s : Store) (v : list (string * SSong)) : Store :=
  {| guilds := guilds s; users := users s; suggestions := suggestions s;
     tickets := tickets s; roles := roles s; songs := v;
     next_id := next_id s |}.
Definition bump_id (s : Store) : Store :=
  {| guilds := guilds s; users := users s; suggestions := suggestions s;
     tickets := tickets s; roles := roles s; songs := songs s;
     next_id := next_id s + 1 |}.

Definition empty : Store :=
  {| guilds := []; users := []; suggestions := []; tickets := [];
     roles := []; songs := []; next_id := 1 |}.

(** ** Guild-scoped tables *)

Section Table.
Context {X : Type}.

(** A row is the one asked for: it is under guild [g] and [p] picks it. *)
Definition hit (p : X → bool) (g : string) (r : string * X) : bool :=
  bool_decide (r.1 = g) && p r.2.

Definition scoped (g : string) (tbl : list (string * X)) : list X :=
  (filter (λ r, r.1 = g) tbl).*2.

Definition lookup_row (p : X → bool) (g : string) (tbl : list (string * X))
    : option X :=
  snd <$> List.find (hit p g) tbl.

Definition replace_rows (p : X → bool) (g : string) (x : X)
    (tbl : list (string * X)) : list (string * X) :=
  map (λ r, if hit p g r then (g, x) else r) tbl.

Fixpoint remove_rows (p : X → bool) (g : string) (tbl : list (string * X))
    : list (string * X) :=
  match tbl with
  | [] => []
  | r :: rest =>
    if hit p g r then remove_rows p g rest else r :: remove_rows p g rest
  end.

(** How many rows under [g] are picked by [p]. *)
Definition count_rows (p : X → bool) (g : string) (tbl : list (string * X))
    : nat :=
  length (filter (λ r, hit p g r = true) tbl).

End Table.

Definition any {X} : X → bool := λ _, true.

(** ** The operations, section 4.2 *)

Definition ok {A} (a : A) (s : Store) : Outcome ServiceError A * Store :=
  (Returned a, s).
Definition fail {A} (e : ServiceError) (s : Store)
    : Outcome ServiceError A * Store :=
  (Threw e, s).

Definition is_guild (id : string) (g : SGuild) : bool :=
  bool_decide (guild_id g = id).
Definition is_user (id : string) (u : SUser) : bool :=
  bool_decide (user_id u = id).
Definition is_suggestion (id : Z) (x : SSuggestion) : bool :=
  bool_decide (suggestion_id x = Some id).
Definition is_ticket (id : Z) (x : SSupportTicket) : bool :=
  bool_decide (ticket_id x = Some id).
Definition is_role (rid : string) (r : SRole) : bool :=
  bool_decide (role_roleId r = rid).
Definition is_song (id : Z) (x : SSong) : bool :=
  bool_decide (song_id x = Some id).
Definition requested_by (u : string) (x : SSong) : bool :=
  bool_decide (song_requestedBy x = u).

Definition guild_of (id : string) (s : Store) : option SGuild :=
  List.find (is_guild id) (guilds s).

(** Modelled from the spec: [GuildService] (services/guild is not among the
    sources).  Guilds: [find], [findById] (absence is a value, never a
    throw), [create] (ConflictError when the id exists), [update] (full
    replace of the mutable fields, NotFoundError when absent), [delete]
    (cascade over the owned children, NotFoundError when absent). *)
Definition sp_find : Svc Store (list SGuild) := λ s, ok (guilds s) s.

Definition sp_findById (id : string) : Svc Store (option SGuild) :=
  λ s, ok (guild_of id s) s.

Definition sp_create (g : SGuild) : Svc Store unit :=
  λ s, match guild_of (guild_id g) s with
       | Some _ => fail ConflictError s
       | None => ok () (set_guilds s (guilds s ++ [g]))
       end.

Definition sp_update (id : string) (g : SGuild) : Svc Store unit :=
  λ s, match guild_of id s with
       | None => fail NotFoundError s
       | Some _ =>
         ok () (set_guilds s
                  (map (λ x, if is_guild id x
                             then {| guild_id := id;
                                     guild_settings := guild_settings g |}
                             else x) (guilds s)))
       end.

Definition cascade (id : string) (s : Store) : Store :=
  {| guilds := filter (λ g, guild_id g ≠ id) (guilds s);
     users := remove_rows any id (users s);
     suggestions := remove_rows any id (suggestions s);
     tickets := remove_rows any id (tickets s);
     roles := remove_rows any id (roles s);
     songs := remove_rows any id (songs s);
     next_id := next_id s |}.

Definition sp_delete (id : string) : Svc Store unit :=
  λ s, match guild_of id s with
       | None => fail NotFoundError s
       | Some _ => ok () (cascade id s)
       end.

Definition sp_findSettings (id : string) : Svc Store (option Obj) :=
  λ s, ok (guild_settings <$> guild_of id s) s.

Definition sp_updateSettings (id : string) (settings : Obj) : Svc Store unit :=
  λ s, match guild_of id s with
       | None => fail NotFoundError s
       | Some _ =>
         ok () (set_guilds s
                  (map (λ x, if is_guild id x
                             then {| guild_id := id; guild_settings := settings |}
                             else x) (guilds s)))
       end.

(** Modelled from the spec: the child-collection operations of
    [GuildService], scoped by (guild id, child id) and of the same shape:
    find never throws, update and delete of an absent child are a
    NotFoundError, create inserts (a user, whose id the caller supplies, is
    a ConflictError when (guild, id) is taken; a suggestion, a support
    ticket and a song get the next auto id and the stored row is what the
    call resolves to). *)
Definition sp_findSuggestions (id : string) : Svc Store (list SSuggestion) :=
  λ s, ok (scoped id (suggestions s)) s.

Definition sp_findSuggestionById (id : string) (sid : Z)
    : Svc Store (option SSuggestion) :=
  λ s, ok (lookup_row (is_suggestion sid) id (suggestions s)) s.

Definition with_suggestion_id (n : Z) (x : SSuggestion) : SSuggestion :=
  {| suggestion_id := Some n; suggestion_content := suggestion_content x;
     suggestion_status := suggestion_status x;
     suggestion_author := suggestion_author x |}.

Definition sp_createSuggestion (id : string) (x : SSuggestion)
    : Svc Store SSuggestion :=
  λ s, let stored := with_suggestion_id (next_id s) x in
       ok stored (bump_id (set_suggestions s (suggestions s ++ [(id, stored)]))).

Definition sp_updateSuggestion (id : string) (sid : Z) (x : SSuggestion)
    : Svc Store unit :=
  λ s, match lookup_row (is_suggestion sid) id (suggestions s) with
       | None => fail NotFoundError s
       | Some _ =>
         ok () (set_suggestions s
                  (replace_rows (is_suggestion sid) id
                     (with_suggestion_id sid x) (suggestions s)))
       end.

Definition sp_deleteSuggestion (id : string) (sid : Z) : Svc Store unit :=
  λ s, match lookup_row (is_suggestion sid) id (suggestions s) with
       | None => fail NotFoundError s
       | Some _ =>
         ok () (set_suggestions s
                  (remove_rows (is_suggestion sid) id (suggestions s)))
       end.

Definition sp_findSupportTickets (id : string)
    : Svc Store (list SSupportTicket) :=
  λ s, ok (scoped id (tickets s)) s.

Definition sp_findSupportTicketById (id : string) (tid : Z)
    : Svc Store (option SSupportTicket) :=
  λ s, ok (lookup_row (is_ticket tid) id (tickets s)) s.

Definition with_ticket_id (n : Z) (x : SSupportTicket) : SSupportTicket :=
  {| ticket_id := Some n; ticket_content := ticket_content x;
     ticket_status := ticket_status x |}.

Definition sp_createSupportTicket (id : string) (x : SSupportTicket)
    : Svc Store SSupportTicket :=
  λ s, let stored := with_ticket_id (next_id s) x in
       ok stored (bump_id (set_tickets s (tickets s ++ [(id, stored)]))).

Definition sp_updateSupportTicket (id : string) (tid : Z) (x : SSupportTicket)
    : Svc Store unit :=
  λ s, match lookup_row (is_ticket tid) id (tickets s) with
       | None => fail NotFoundError s
       | Some _ =>
         ok () (set_tickets s
                  (replace_rows (is_ticket tid) id (with_ticket_id tid x)
                     (tickets s)))
       end.

Definition sp_deleteSupportTicket (id : string) (tid : Z) : Svc Store unit :=
  λ s, match lookup_row (is_ticket tid) id (tickets s) with
       | None => fail NotFoundError s
       | Some _ =>
         ok () (set_tickets s (remove_rows (is_ticket tid) id (tickets s)))
       end.

Definition sp_findUsers (id : string) : Svc Store (list SUser) :=
  λ s, ok (scoped id (users s)) s.

Definition sp_findUserById (id uid : string) : Svc Store (option SUser) :=
  λ s, ok (lookup_row (is_user uid) id (users s)) s.

Definition sp_createUser (id : string) (u : SUser) : Svc Store unit :=
  λ s, match lookup_row (is_user (user_id u)) id (users s) with
       | Some _ => fail ConflictError s
       | None => ok () (set_users s (users s ++ [(id, u)]))
       end.

Definition sp_updateUser (id uid : string) (u : SUser) : Svc Store unit :=
  λ s, match lookup_row (is_user uid) id (users s) with
       | None => fail NotFoundError s
       | Some _ =>
         ok () (set_users s
                  (replace_rows (is_user uid) id {| user_id := uid |} (users s)))
       end.

Definition sp_deleteUser (id uid : string) : Svc Store unit :=
  λ s, match lookup_row (is_user uid) id (users s) with
       | None => fail NotFoundError s
       | Some _ => ok () (set_users s (remove_rows (is_user uid) id (users s)))
       end.

(** Modelled from the spec: the two service calls of self-assignable role
    creation, section 4.2: the lookup of a role by (guild, roleId), and the
    insert, which is step (3) alone; the check before it is the caller's. *)
Definition sp_findSelfAssignableRoles (id : string) : Svc Store (list SRole) :=
  λ s, ok (scoped id (roles s)) s.

Definition sp_findSelfAssignableRole (id rid : string)
    : Svc Store (option SRole) :=
  λ s, ok (lookup_row (is_role rid) id (roles s)) s.

Definition sp_createSelfAssignableRole (id : string) (r : SRole)
    : Svc Store unit :=
  λ s, ok () (set_roles s (roles s ++ [(id, r)])).

Definition sp_deleteSelfAssignableRole (id rid : string) : Svc Store unit :=
  λ s, match lookup_row (is_role rid) id (roles s) with
       | None => fail NotFoundError s
       | Some _ => ok () (set_roles s (remove_rows (is_role rid) id (roles s)))
       end.

(** Modelled from the spec: the playlist operations.  Deletion by user
    removes, in the one call, every song of the guild whose requester is
    the user; the queue keeps insertion order. *)
Definition sp_findPlaylist (id : string) : Svc Store (list SSong) :=
  λ s, ok (scoped id (songs s)) s.

Definition sp_createSong (id : string) (x : SSong) : Svc Store SSong :=
  λ s, let stored := {| song_id := Some (next_id s);
                        song_requestedBy := song_requestedBy x |} in
       ok stored (bump_id (set_songs s (songs s ++ [(id, stored)]))).

Definition sp_clearPlaylist (id : string) : Svc Store unit :=
  λ s, ok () (set_songs s (remove_rows any id (songs s))).

Definition sp_findPlaylistSongsByUserId (id uid : string)
    : Svc Store (list SSong) :=
  λ s, ok (filter (λ x, song_requestedBy x = uid) (scoped id (songs s))) s.

Definition sp_deleteSongsByUserId (id uid : string) : Svc Store unit :=
  λ s, ok () (set_songs s (remove_rows (requested_by uid) id (songs s))).

Definition sp_deleteSong (id : string) (sid : Z) : Svc Store unit :=
  λ s, match lookup_row (is_song sid) id (songs s) with
       | None => fail NotFoundError s
       | Some _ => ok () (set_songs s (remove_rows (is_song sid) id (songs s)))
       end.

(** The service the controller is given. *)
Definition service : GuildService.Interface Store := {|
  GuildService.find := sp_find;
  GuildService.findById := sp_findById;
  GuildService.create := sp_create;
  GuildService.delete := sp_delete;
  GuildService.update := sp_update;
  GuildService.findSuggestions := sp_findSuggestions;
  GuildService.findSuggestionById := sp_findSuggestionById;
  GuildService.createSuggestion := sp_createSuggestion;
  GuildService.updateSuggestion := sp_updateSuggestion;
  GuildService.deleteSuggestion := sp_deleteSuggestion;
  GuildService.findSupportTickets := sp_findSupportTickets;
  GuildService.findSupportTicketById := sp_findSupportTicketById;
  GuildService.createSupportTicket := sp_createSupportTicket;
  GuildService.updateSupportTicket := sp_updateSupportTicket;
  GuildService.deleteSupportTicket := sp_deleteSupportTicket;
  GuildService.findSettings := sp_findSettings;
  GuildService.updateSettings := sp_updateSettings;
  GuildService.findUsers := sp_findUsers;
  GuildService.findUserById := sp_findUserById;
  GuildService.createUser := sp_createUser;
  GuildService.updateUser := sp_updateUser;
  GuildService.deleteUser := sp_deleteUser;
  GuildService.findSelfAssignableRoles := sp_findSelfAssignableRoles;
  GuildService.findSelfAssignableRole := sp_findSelfAssignableRole;
  GuildService.createSelfAssignableRole := sp_createSelfAssignableRole;
  GuildService.deleteSelfAssignableRole := sp_deleteSelfAssignableRole;
  GuildService.findPlaylist := sp_findPlaylist;
  GuildService.createSong := sp_createSong;
  GuildService.clearPlaylist := sp_clearPlaylist;
  GuildService.findPlaylistSongsByUserId := sp_findPlaylistSongsByUserId;
  GuildService.deleteSongsByUserId := sp_deleteSongsByUserId;
  GuildService.deleteSong := sp_deleteSong
|}.

(** A request starts with the store as it is and nothing done yet. *)
Definition fresh (s : Store) : World Store := {| store := s; trace := [] |}.

End SpecService.

(* ===================================================================== *)
(** * Sample inputs *)
(* ===================================================================== *)

Module Samples.

(** A referral snapshot that carries no creation date. *)
Definition referral_without_date : Obj :=
  {[ "id" := VNum 1234; "joinCount" := VNum 0;
     "inviteUrl" := VStr "discord.gg/nightwatch" ]}.

(** A referral snapshot that carries one. *)
Definition referral_with_date : Obj :=
  <["dateCreated" := VDate 1000]> referral_without_date.

(** Two moderators warn the same user. *)
Definition warning_by_mod1 : Entity.ModerationRecord :=
  {| Entity.rec_issuer := "mod1"; Entity.rec_reason := "spam";
     Entity.rec_timestamp := 1000; Entity.rec_user := "u1" |}.

Definition warning_by_mod2 : Entity.ModerationRecord :=
  {| Entity.rec_issuer := "mod2"; Entity.rec_reason := "flood";
     Entity.rec_timestamp := 2000; Entity.rec_user := "u1" |}.

(** A premium configuration, and a client whose cache holds the primary
    guild with one patron, one plain member and the bot owner a member. *)
Definition premium_config : UserController.Config :=
  {| UserController.optional_premium :=
       Some {| UserController.premiumPatreonRoleId := Some "patron";
               UserController.primaryGuildId := Some "home" |} |}.

Definition home_guild : UserController.DiscordGuild :=
  {| UserController.members :=
       {[ "alice" := {| UserController.roles := {[ "patron" ]} |};
          "bob" := {| UserController.roles := ∅ |};
          "owner" := {| UserController.roles := ∅ |} ]} |}.

Definition client : UserController.CommandoClient :=
  {| UserController.guilds := {[ "home" := home_guild ]};
     UserController.isOwner := λ id, bool_decide (id = "owner") |}.

(** A config.json with credentials in its [bot] section. *)
Definition bot_config : Authentication.Config :=
  {| Authentication.bot :=
       Some {| Authentication.bot_clientSecret := Some "s3cret";
               Authentication.bot_clientId := Some "4242" |} |}.

(** A guild, a role and two songs for the service. *)
Definition g1 : SpecService.SGuild :=
  {| SpecService.guild_id := "g1"; SpecService.guild_settings := ∅ |}.

Definition r1 : SpecService.SRole := {| SpecService.role_roleId := "r1" |}.

Definition song_of (u : string) : SpecService.SSong :=
  {| SpecService.song_id := None; SpecService.song_requestedBy := u |}.

(** A store with guild g1 and nothing else. *)
Definition store_g1 : SpecService.Store :=
  SpecService.set_guilds SpecService.empty [g1].

End Samples.

(* ===================================================================== *)
(** * The read routes, request sequences and the two halves of role
      creation *)
(* ===================================================================== *)

(** One request per GET route, with its parameters. *)
Inductive Query :=
| GET_guilds
| GET_guild (id : string)
| GET_suggestions (id : string)
| GET_suggestion (id : string) (suggestionId : Z)
| GET_supportTickets (id : string)
| GET_supportTicket (id : string) (ticketId : Z)
| GET_settings (id : string)
| GET_users (id : string)
| GET_user (id userId : string)
| GET_selfAssignableRoles (id : string)
| GET_selfAssignableRole (id roleId : string)
| GET_playlist (id : string)
| GET_songsByUser (id userId : string).

(** What a GET route returns: a collection, or one entity that may be
    absent ([undefined]). *)
Inductive Reply `{Entities} :=
| R_guilds (l : list Guild)
| R_guild (o : option Guild)
| R_suggestions (l : list GuildSuggestion)
| R_suggestion (o : option GuildSuggestion)
| R_supportTickets (l : list GuildSupportTicket)
| R_supportTicket (o : option GuildSupportTicket)
| R_settings (o : option GuildSettings)
| R_users (l : list GuildUser)
| R_user (o : option GuildUser)
| R_selfAssignableRoles (l : list GuildSelfAssignableRole)
| R_selfAssignableRole (o : option GuildSelfAssignableRole)
| R_songs (l : list Song).

Section Reads.
Context `{Entities} {Store : Type}.
Variable guildService : GuildService.Interface Store.

(** What a call resolves to, seen through [f]; a rejection stays as it is. *)
Definition through {S A B} (f : A → B) (m : M S ServiceError A)
    : M S ServiceError B :=
  bind m (λ a, ret (f a)).

(** The routing table of the GET routes. *)
Definition fetch (q : Query) : M (World Store) ServiceError Reply :=
  match q with
  | GET_guilds => through R_guilds (GuildController.find guildService)
  | GET_guild id => through R_guild (GuildController.findById guildService id)
  | GET_suggestions id =>
    through R_suggestions (GuildController.findSuggestions guildService id)
  | GET_suggestion id sid =>
    through R_suggestion
      (GuildController.findSuggestionById guildService id sid)
  | GET_supportTickets id =>
    through R_supportTickets
      (GuildController.findSupportTickets guildService id)
  | GET_supportTicket id tid =>
    through R_supportTicket
      (GuildController.findSupportTicketById guildService id tid)
  | GET_settings id =>
    through R_settings (GuildController.findSettingsById guildService id)
  | GET_users id => through R_users (GuildController.findUsers guildService id)
  | GET_user id uid =>
    through R_user (GuildController.findUserById guildService id uid)
  | GET_selfAssignableRoles id =>
    through R_selfAssignableRoles
      (GuildController.findSelfAssignableRoles guildService id)
  | GET_selfAssignableRole id rid =>
    through R_selfAssignableRole
      (GuildController.findSelfAssignableRole guildService id rid)
  | GET_playlist id =>
    through R_songs (GuildController.findPlaylist guildService id)
  | GET_songsByUser id uid =>
    through R_songs (GuildController.findSongsByUserId guildService id uid)
  end.

(** The service call behind a GET route, with its name. *)
Definition read (q : Query) : ServiceMethod * Svc Store Reply :=
  match q with
  | GET_guilds => (s_find, through R_guilds (GuildService.find guildService))
  | GET_guild id =>
    (s_findById, through R_guild (GuildService.findById guildService id))
  | GET_suggestions id =>
    (s_findSuggestions,
     through R_suggestions (GuildService.findSuggestions guildService id))
  | GET_suggestion id sid =>
    (s_findSuggestionById,
     through R_suggestion
       (GuildService.findSuggestionById guildService id sid))
  | GET_supportTickets id =>
    (s_findSupportTickets,
     through R_supportTickets
       (GuildService.findSupportTickets guildService id))
  | GET_supportTicket id tid =>
    (s_findSupportTicketById,
     through R_supportTicket
       (GuildService.findSupportTicketById guildService id tid))
  | GET_settings id =>
    (s_findSettings,
     through R_settings (GuildService.findSettings guildService id))
  | GET_users id =>
    (s_findUsers, through R_users (GuildService.findUsers guildService id))
  | GET_user id uid =>
    (s_findUserById,
     through R_user (GuildService.findUserById guildService id uid))
  | GET_selfAssignableRoles id =>
    (s_findSelfAssignableRoles,
     through R_selfAssignableRoles
       (GuildService.findSelfAssignableRoles guildService id))
  | GET_selfAssignableRole id rid =>
    (s_findSelfAssignableRole,
     through R_selfAssignableRole
       (GuildService.findSelfAssignableRole guildService id rid))
  | GET_playlist id =>
    (s_findPlaylist, through R_songs (GuildService.findPlaylist guildService id))
  | GET_songsByUser id uid =>
    (s_findPlaylistSongsByUserId,
     through R_songs
       (GuildService.findPlaylistSongsByUserId guildService id uid))
  end.

(** The one reply on which a GET route writes a status itself. *)
Definition is_absent_guild (o : Outcome ServiceError Reply) : bool :=
  match o with
  | Returned (R_guild None) => true
  | _ => false
  end.

(** POST /:id/self-assignable-roles is the one mutation route with two
    service calls. *)
Definition is_role_creation (m : Mutation) : bool :=
  match m with
  | POST_selfAssignableRole _ _ => true
  | _ => false
  end.

(** Requests served one after the other, each on the world the one before
    left; a request that throws does not stop the ones after it. *)
Definition serve_all (ms : list Mutation) (w : World Store) : World Store :=
  fold_left (λ w m, (dispatch guildService m w).2) ms w.

(** Role creation up to its [await]: the lookup. *)
Definition role_lookup (id : string) (r : GuildSelfAssignableRole)
    : M (World Store) ServiceError (option GuildSelfAssignableRole) :=
  await (GuildController.findSelfAssignableRole guildService id (roleId r)).

(** Role creation from its [await] on, once the lookup has settled. *)
Definition role_resume (id : string) (r : GuildSelfAssignableRole)
    (settled : Outcome ServiceError (option GuildSelfAssignableRole))
    : M (World Store) ServiceError unit :=
  match settled with
  | Threw e => throw e
  | Returned (Some _) => GuildController.res_sendStatus 409
  | Returned None =>
    GuildController.call s_createSelfAssignableRole
      (GuildService.createSelfAssignableRole guildService id r)
  end.

(** Two creations in flight at once: both reach their [await] before
    either is resumed.  The outcomes are those of the first and of the
    second request. *)
Definition interleaved_creation (id : string)
    (ra rb : GuildSelfAssignableRole) (w : World Store)
    : Outcome ServiceError unit * Outcome ServiceError unit * World Store :=
  let la := role_lookup id ra w in
  let lb := role_lookup id rb la.2 in
  let ca := role_resume id ra la.1 lb.2 in
  let cb := role_resume id rb lb.1 ca.2 in
  (ca.1, cb.1, cb.2).

End Reads.

(** The role id of the premium configuration, when it has one. *)
Definition premium_role (config : UserController.Config) : option string :=
  premium ← UserController.optional_premium config;
  UserController.premiumPatreonRoleId premium.

Module MoreSamples.

(** A client that also caches a second guild, where bob holds a role named
    like the premium role. *)
Definition client_two_guilds : UserController.CommandoClient :=
  {| UserController.guilds :=
       <["other" := {| UserController.members :=
                         {[ "bob" := {| UserController.roles :=
                                          {[ "patron" ]} |} ]} |}]>
         (UserController.guilds Samples.client);
     UserController.isOwner := UserController.isOwner Samples.client |}.



End MoreSamples.

(* ===================================================================== *)
(** * Properties: entity constructors *)
(* ===================================================================== *)

Import Entity Samples.

Lemma Object_assign_empty (s : Obj) : Object_assign ∅ s = s.
Proof. unfold Object_assign. apply (right_id_L ∅ (∪)). Qed.

Lemma new_GuildUserWarning_snapshot (s : Obj) :
  new_GuildUserWarning (Some s) = s.
Proof. apply Object_assign_empty. Qed.

Lemma new_GuildUserKick_snapshot (s : Obj) : new_GuildUserKick (Some s) = s.
Proof. apply Object_assign_empty. Qed.

Lemma new_Referral_snapshot (now : Z) (s : Obj) :
  new_Referral now (Some s) = <["dateCreated" := VDate now]> s.
Proof. unfold new_Referral. by rewrite Object_assign_empty. Qed.

(** Whatever the snapshot, a referral's [dateCreated] is the clock reading
    at construction. *)
Lemma new_Referral_dateCreated (now : Z) (s : option Obj) :
  new_Referral now s !! "dateCreated" = Some (VDate now).
Proof. unfold new_Referral. apply lookup_insert_eq. Qed.

Lemma construct_lookup (c : EntityClass) (now : Z) (s : Obj) (k : string) :
  k ∉ stamped c → construct c now (Some s) !! k = s !! k.
Proof.
  destruct c; cbn [construct stamped]; intros Hk.
  - by rewrite new_GuildUserWarning_snapshot.
  - by rewrite new_GuildUserKick_snapshot.
  - rewrite new_Referral_snapshot. apply lookup_insert_ne.
    intros <-. apply Hk. left.
Qed.

(** C6, as stated, fails on Referral: two constructions from one snapshot,
    made at clock readings 1000 and 2000, copy the snapshot's fields but are
    not field-equal. *)
Lemma referral_twice_not_field_equal :
  copies_all_fields referral_without_date
    (construct Referral 1000 (Some referral_without_date))
  ∧ ¬ field_equal (construct Referral 1000 (Some referral_without_date))
        (construct Referral 2000 (Some referral_without_date)).
Proof.
  split.
  - intros k v Hk. cbn [construct]. rewrite new_Referral_snapshot.
    destruct (decide (k = "dateCreated")) as [->|Hne].
    + vm_compute in Hk. discriminate.
    + by rewrite lookup_insert_ne.
  - intros Heq. specialize (Heq "dateCreated"). cbn [construct] in Heq.
    rewrite !new_Referral_dateCreated in Heq. discriminate.
Qed.

(** C6, amended: from a snapshot [s], every constructor yields an instance
    that agrees with [s] on each property the constructor does not stamp
    itself (none for GuildUserWarning and GuildUserKick, [dateCreated] for
    Referral), and two constructions from [s] agree on each such property. *)
Theorem construct_copies_unstamped (c : EntityClass) (now1 now2 : Z)
    (s : Obj) (k : string) :
  k ∉ stamped c →
  construct c now1 (Some s) !! k = s !! k
  ∧ construct c now1 (Some s) !! k = construct c now2 (Some s) !! k.
Proof.
  intros Hk. split.
  - by apply construct_lookup.
  - by rewrite !construct_lookup.
Qed.

Lemma construct_copies_unstamped_witness :
("inviteUrl" ∉ stamped Referral)
  ∧ construct Referral 1000 (Some referral_with_date) !! "inviteUrl"
    = Some (VStr "discord.gg/nightwatch")
  ∧ construct GuildUserWarning 1000 (Some referral_with_date) !! "dateCreated"
    = construct GuildUserWarning 2000 (Some referral_with_date) !! "dateCreated".
Proof.
  assert (H1 : "inviteUrl" ∉ stamped Referral).
  { intros H. apply list_elem_of_In in H. simpl in H.
    destruct H as [H|[]]. discriminate H. }
  assert (H2 : "dateCreated" ∉ stamped GuildUserWarning).
  { intros H. apply list_elem_of_In in H. exact H. }
  split; [exact H1|]. split.
  - exact (eq_trans
      (proj1 (construct_copies_unstamped Referral 1000 2000
                referral_with_date "inviteUrl" H1)) eq_refl).
  - exact (proj2 (construct_copies_unstamped GuildUserWarning 1000 2000
                    referral_with_date "dateCreated" H2)).
Defined.

(** C7: the snapshot carries [dateCreated] = 1000 and the referral is
    constructed at clock reading 2000; the instance's [dateCreated] is 2000,
    the supplied value is gone. *)
Theorem referral_supplied_date_overwritten :
  referral_with_date !! "dateCreated" = Some (VDate 1000)
  ∧ new_Referral 2000 (Some referral_with_date) !! "dateCreated"
    = Some (VDate 2000).
Proof. split; [reflexivity | apply new_Referral_dateCreated]. Qed.


(* ===================================================================== *)
(** * Properties: the unique index of the moderation records *)
(* ===================================================================== *)

(** Both entities declare one unique index, and it is on [user] alone. *)
Lemma moderation_unique_indexes (c : ModerationClass) :
  unique_indexes (moderation_properties c) = [["user"]].
Proof. destruct c; reflexivity. Qed.

Lemma agree_on_user (a b : ModerationRecord) :
  agree_on ["user"] a b = true ↔ rec_user a = rec_user b.
Proof.
  unfold agree_on. cbn [forallb]. rewrite andb_true_r.
  rewrite bool_decide_eq_true. unfold column. simpl.
  split; [intros H; by injection H | by intros ->].
Qed.

Lemma violates_user (table : list ModerationRecord) (r : ModerationRecord) :
  violates [["user"]] table r = true ↔ rec_user r ∈ rec_user <$> table.
Proof.
  unfold violates. cbn [existsb]. rewrite orb_false_r.
  rewrite existsb_exists, list_elem_of_fmap.
  split.
  - intros (x & Hx & Hag). exists x. split.
    + by apply agree_on_user.
    + by apply list_elem_of_In.
  - intros (x & Heq & Hx). exists x. split.
    + by apply list_elem_of_In.
    + by apply agree_on_user.
Qed.

Lemma insert_record_rejects (c : ModerationClass)
    (table : list ModerationRecord) (r : ModerationRecord) :
  insert_record (moderation_properties c) table r = None
  ↔ rec_user r ∈ rec_user <$> table.
Proof.
  unfold insert_record. rewrite moderation_unique_indexes.
  rewrite <- violates_user.
  destruct (violates [["user"]] table r); split; congruence.
Qed.

Lemma insert_record_keeps_targets_distinct (c : ModerationClass)
    (table : list ModerationRecord) (r : ModerationRecord) :
  NoDup (rec_user <$> table) →
  NoDup (rec_user <$> default table
           (insert_record (moderation_properties c) table r)).
Proof.
  intros Hnd.
  destruct (insert_record (moderation_properties c) table r) as [t'|] eqn:Hins.
  - simpl. unfold insert_record in Hins.
    rewrite moderation_unique_indexes in Hins.
    destruct (violates [["user"]] table r) eqn:Hv; [discriminate|].
    injection Hins as <-. rewrite fmap_app. apply NoDup_app.
    split; [exact Hnd|]. split.
    + intros u Hu Hin. apply list_elem_of_singleton in Hin. subst u.
      apply violates_user in Hu. congruence.
    + apply NoDup_singleton.
  - exact Hnd.
Qed.

Lemma insert_all_keeps_targets_distinct (c : ModerationClass)
    (rs table : list ModerationRecord) :
  NoDup (rec_user <$> table) →
  NoDup (rec_user <$> insert_all (moderation_properties c) table rs).
Proof.
  revert table. induction rs as [|r rs IH]; intros table Hnd.
  - exact Hnd.
  - cbn [insert_all fold_left]. apply IH.
    by apply insert_record_keeps_targets_distinct.
Qed.

(** C4, as stated, fails: the unique index is on [user] alone, so when a
    second moderator warns a user who already has a warning from another
    moderator the insert is rejected. *)
Lemma second_issuer_same_target_rejected :
  rec_issuer warning_by_mod1 ≠ rec_issuer warning_by_mod2
  ∧ rec_user warning_by_mod1 = rec_user warning_by_mod2
  ∧ unique_indexes GuildUserWarning_properties = [["user"]]
  ∧ insert_record GuildUserWarning_properties [warning_by_mod1] warning_by_mod2
    = None.
Proof. repeat split; [discriminate | reflexivity..]. Qed.

(** C4, amended: for GuildUserWarning and GuildUserKick the one unique
    index covers the target [user] alone; an insert is rejected exactly
    when the table already holds a record against the same target, whoever
    issued it, and so whatever records are inserted into an empty table no
    two stored records share a target. *)
Theorem one_moderation_record_per_target (c : ModerationClass) :
  unique_indexes (moderation_properties c) = [["user"]]
  ∧ (∀ table r,
       insert_record (moderation_properties c) table r = None
       ↔ rec_user r ∈ rec_user <$> table)
  ∧ (∀ rs, NoDup (rec_user <$> insert_all (moderation_properties c) [] rs)).
Proof.
  split; [apply moderation_unique_indexes|]. split.
  - intros table r. apply insert_record_rejects.
  - intros rs. apply insert_all_keeps_targets_distinct. constructor.
Qed.

Lemma one_moderation_record_per_target_witness :
  rec_user warning_by_mod2 ∈ rec_user <$> [warning_by_mod1]
  ∧ insert_record (moderation_properties Warning) [warning_by_mod1]
      warning_by_mod2 = None.
Proof.
  assert (H : rec_user warning_by_mod2 ∈ rec_user <$> [warning_by_mod1]).
  { apply list_elem_of_here. }
  split; [exact H|].
  exact (proj2 (proj1 (proj2 (one_moderation_record_per_target Warning))
                  [warning_by_mod1] warning_by_mod2) H).
Defined.

(* ===================================================================== *)
(** * Properties: premium lookup *)
(* ===================================================================== *)

Section PremiumProps.
Import UserController.

Lemma truthy_Some (v : option string) :
  truthy v = true → ∃ s, v = Some s ∧ s ≠ EmptyString.
Proof.
  destruct v as [s|]; [|discriminate]. simpl.
  intros H. exists s. split; [done|].
  apply negb_true_iff, bool_decide_eq_false in H. exact H.
Qed.

(** The result, path by path. *)
Lemma userHasPremium_true_iff (config : Config) (client : CommandoClient)
    (id : string) :
  userHasPremium config id client = true ↔
  ∃ premium rid gid guild member,
    optional_premium config = Some premium
    ∧ premiumPatreonRoleId premium = Some rid ∧ rid ≠ EmptyString
    ∧ primaryGuildId premium = Some gid ∧ gid ≠ EmptyString
    ∧ guilds client !! gid = Some guild
    ∧ members guild !! id = Some member
    ∧ (isOwner client id = true ∨ rid ∈ roles member).
Proof.
  unfold userHasPremium. split.
  - destruct (optional_premium config) as [premium|]; [|discriminate].
    destruct (truthy (premiumPatreonRoleId premium)) eqn:Hr; [|discriminate].
    destruct (truthy (primaryGuildId premium)) eqn:Hg; [|discriminate].
    apply truthy_Some in Hr as (rid & Hr & Hrne).
    apply truthy_Some in Hg as (gid & Hg & Hgne).
    rewrite Hr, Hg. simpl.
    destruct (guilds client !! gid) as [guild|] eqn:Hguild; [|discriminate].
    destruct (members guild !! id) as [member|] eqn:Hm; [|discriminate].
    intros H. exists premium, rid, gid, guild, member.
    repeat (split; [done|]).
    destruct (isOwner client id); [by left|].
    right. by apply bool_decide_eq_true in H.
  - intros (premium & rid & gid & guild & member
            & -> & Hr & Hrne & Hg & Hgne & Hguild & Hm & Hor).
    rewrite Hr, Hg. simpl.
    rewrite !bool_decide_eq_false_2 by done. simpl.
    rewrite Hguild, Hm.
    destruct (isOwner client id); [done|].
    destruct Hor as [?|Hin]; [done|]. by apply bool_decide_eq_true.
Qed.

Lemma userHasPremium_member (config : Config) (client : CommandoClient)
    (id : string) :
  userHasPremium config id client = true →
  ¬ premium_config_absent config ∧ is_primary_member config client id.
Proof.
  intros (premium & rid & gid & guild & member
          & Hp & Hr & Hrne & Hg & Hgne & Hguild & Hm & _)%userHasPremium_true_iff.
  split.
  - unfold premium_config_absent. rewrite Hp, Hr, Hg. simpl.
    rewrite !bool_decide_eq_false_2 by done. simpl. intros [?|?]; discriminate.
  - exists guild, member. split; [|done].
    unfold primary_guild. rewrite Hp. simpl. rewrite Hg. simpl. done.
Qed.

(** C9: [userHasPremium] is false when the premium configuration is
    absent, when the primary guild is not in the client's cache, and when
    the id is not a member of the primary guild; and for an id the client
    owns the result is true exactly when the configuration is present and
    the id is a member of the primary guild, so the owner short-circuit is
    reached for members only. *)
Theorem userHasPremium_false_unless_member (config : Config)
    (client : CommandoClient) (id : string) :
  (premium_config_absent config
   ∨ primary_guild config client = None
   ∨ ¬ is_primary_member config client id →
   userHasPremium config id client = false)
  ∧ (isOwner client id = true →
     (userHasPremium config id client = true
      ↔ ¬ premium_config_absent config ∧ is_primary_member config client id)).
Proof.
  split.
  - intros Hcase.
    destruct (userHasPremium config id client) eqn:Hres; [|done].
    apply userHasPremium_member in Hres as [Hcfg Hmem].
    destruct Hcase as [?|[Hnone|?]]; [done| |done].
    destruct Hmem as (guild & member & Hg & _). congruence.
  - intros Howner. split; [apply userHasPremium_member|].
    intros [Hcfg (guild & member & Hg & Hm)].
    apply userHasPremium_true_iff.
    unfold primary_guild in Hg. unfold premium_config_absent in Hcfg.
    destruct (optional_premium config) as [premium|] eqn:Hp;
      [|discriminate Hg].
    simpl in Hg.
    destruct (primaryGuildId premium) as [gid|] eqn:Hgid; [|discriminate Hg].
    simpl in Hg.
    destruct (truthy (premiumPatreonRoleId premium)) eqn:Hr;
      [|exfalso; apply Hcfg; by left].
    destruct (truthy (Some gid)) eqn:Hgt;
      [|exfalso; apply Hcfg; by right].
    apply truthy_Some in Hr as (rid & Hr & Hrne).
    apply truthy_Some in Hgt as (gid' & [= <-] & Hgne).
    exists premium, rid, gid, guild, member.
    repeat (split; [done|]). by left.
Qed.

End PremiumProps.

Lemma userHasPremium_false_unless_member_witness :
  (UserController.premium_config_absent
     {| UserController.optional_premium := None |}
   ∨ UserController.primary_guild
       {| UserController.optional_premium := None |} Samples.client = None
   ∨ ¬ UserController.is_primary_member
         {| UserController.optional_premium := None |} Samples.client "owner")
  ∧ UserController.userHasPremium
      {| UserController.optional_premium := None |} "owner" Samples.client
    = false.
Proof.
  assert (H : UserController.premium_config_absent
                {| UserController.optional_premium := None |}
              ∨ UserController.primary_guild
                  {| UserController.optional_premium := None |} Samples.client
                = None
              ∨ ¬ UserController.is_primary_member
                    {| UserController.optional_premium := None |}
                    Samples.client "owner").
  { left. exact I. }
  split; [exact H|].
  exact (proj1 (userHasPremium_false_unless_member
                  {| UserController.optional_premium := None |}
                  Samples.client "owner") H).
Defined.

Example owner_in_primary_guild_has_premium :
  UserController.userHasPremium Samples.premium_config "owner" Samples.client
  = true.
Proof. reflexivity. Qed.

Example owner_outside_primary_guild_has_no_premium :
  UserController.userHasPremium Samples.premium_config "owner"
    {| UserController.guilds :=
         {[ "home" := {| UserController.members := ∅ |} ]};
       UserController.isOwner := λ _, true |}
  = false.
Proof. reflexivity. Qed.

Example patron_has_premium :
  UserController.userHasPremium Samples.premium_config "alice" Samples.client
  = true
  ∧ UserController.userHasPremium Samples.premium_config "bob" Samples.client
    = false.
Proof. split; reflexivity. Qed.

(* ===================================================================== *)
(** * Properties: the OAuth credentials *)
(* ===================================================================== *)

Section AuthenticationProps.
Import Authentication.

Example base64_of_colon : base64 ":" = "Og==".
Proof. reflexivity. Qed.

Example base64_of_text : base64 "Many hands" = "TWFueSBoYW5kcw==".
Proof. reflexivity. Qed.

Example base64_of_credentials : base64 "4242:s3cret" = "NDI0MjpzM2NyZXQ=".
Proof. reflexivity. Qed.

(** Assigning to [clientSecret] throws and leaves the scope as it was. *)
Lemma assign_clientSecret_throws (v : option string) :
  assign "clientSecret" v declared
  = (Threw (AssignmentToConstant "clientSecret"), declared).
Proof. reflexivity. Qed.

(** Whatever is on disk, loading the module ends with both bindings as
    declared and one error on the console. *)
Lemma load_module_cases (file : option Config) :
  load_module file =
  {| scope := scope declared;
     console :=
       [match file with
        | None => CannotFindModule config_path
        | Some config =>
          match bot config with
          | None => CannotDestructure
          | Some _ => AssignmentToConstant "clientSecret"
          end
        end] |}.
Proof.
  destruct file as [[[b|]]|]; reflexivity.
Qed.

(** C10: whatever config.json holds, and also when it cannot be loaded,
    the try block ends in a throw that is caught and logged (the assignment
    to the constant [clientSecret] whenever the [bot] section is there to be
    read), [clientId] and [clientSecret] are still the empty string, and
    for every [code] and [redirect] the Authorization header is the one
    constant ["Basic Og=="]. *)
Theorem getDiscordAccessToken_constant_header (file : option Config)
    (code redirect : string) :
  let st := load_module file in
  console st =
    [match file with
     | None => CannotFindModule config_path
     | Some config =>
       match bot config with
       | None => CannotDestructure
       | Some _ => AssignmentToConstant "clientSecret"
       end
     end]
  ∧ interpolate st "clientId" = EmptyString
  ∧ interpolate st "clientSecret" = EmptyString
  ∧ authorization (getDiscordAccessToken st code redirect) = "Basic Og==".
Proof.
  cbv zeta. rewrite load_module_cases. repeat split; reflexivity.
Qed.

End AuthenticationProps.

Example credentials_on_disk_are_ignored :
  Authentication.authorization
    (Authentication.getDiscordAccessToken
       (Authentication.load_module (Some Samples.bot_config)) "abc" "http://x")
  = "Basic Og=="
  ∧ Authentication.url
      (Authentication.getDiscordAccessToken
         (Authentication.load_module (Some Samples.bot_config)) "abc" "http://x")
    = "https://discordapp.com/api/oauth2/token?grant_type=authorization_code&code=abc&redirect_uri=http://x".
Proof. split; reflexivity. Qed.

(* ===================================================================== *)
(** * Properties: the guild controller *)
(* ===================================================================== *)

Section ControllerProps.
Context `{Entities} {Store : Type}.
Variable svc : GuildService.Interface Store.

Lemma events_app (t1 t2 : list Effect) :
  events (t1 ++ t2) = events t1 ++ events t2.
Proof. apply omap_app. Qed.

(** A request of a notifying route: the commit is called; if it resolves,
    the event follows it and the method returns; if it rejects, the method
    throws there and then. *)
Lemma dispatch_notifying (m : Mutation) (w : World Store)
    (ev : EventName * Payload) :
  notification m = Some ev →
  dispatch svc m w =
  let r := (commit svc m).2 (store w) in
  match r.1 with
  | Returned _ =>
    (Returned (),
     {| store := r.2;
        trace := trace w ++ [Called (commit svc m).1 true; Emitted ev.1 ev.2] |})
  | Threw e =>
    (Threw e,
     {| store := r.2; trace := trace w ++ [Called (commit svc m).1 false] |})
  end.
Proof.
  destruct m; intros [= <-]; cbn [dispatch commit fst snd];
    unfold GuildController.create, GuildController.deleteById,
      GuildController.updateById, GuildController.createSuggestion,
      GuildController.updateSuggestionById,
      GuildController.deleteSuggestionById,
      GuildController.createSupportTicket,
      GuildController.updateSupportTicketById,
      GuildController.deleteSupportTicketById,
      GuildController.updateSettingsById, GuildController.createUser,
      GuildController.updateUserById, GuildController.deleteUserById,
      GuildController.call, GuildController.socketService_send,
      void, forget, await, bind, ret; cbn [store trace fst snd];
    match goal with
    | |- context [?f (store w)] => destruct (f (store w)) as [[a|e] s']
    end; cbn [fst snd is_returned store trace];
    rewrite <- ?app_assoc; try destruct a; reflexivity.
Qed.

(** Role creation, by what the lookup says. *)
Lemma createSelfAssignableRole_run (id : string)
    (r : GuildSelfAssignableRole) (w : World Store) :
  GuildController.createSelfAssignableRole svc id r w =
  let l := GuildService.findSelfAssignableRole svc id (roleId r) (store w) in
  match l.1 with
  | Returned (Some _) =>
    (Returned (),
     {| store := l.2;
        trace := trace w ++ [Called s_findSelfAssignableRole true;
                             StatusSent 409] |})
  | Returned None =>
    let c := GuildService.createSelfAssignableRole svc id r l.2 in
    (c.1,
     {| store := c.2;
        trace := trace w ++ [Called s_findSelfAssignableRole true;
                             Called s_createSelfAssignableRole
                               (is_returned c.1)] |})
  | Threw e =>
    (Threw e,
     {| store := l.2;
        trace := trace w ++ [Called s_findSelfAssignableRole false] |})
  end.
Proof.
  unfold GuildController.createSelfAssignableRole,
    GuildController.findSelfAssignableRole, GuildController.call,
    GuildController.res_sendStatus, await, bind.
  cbn [store trace fst snd].
  destruct (GuildService.findSelfAssignableRole svc id (roleId r) (store w))
    as [[[found|]|e] s']; cbn [fst snd is_returned store trace];
    rewrite <- ?app_assoc; reflexivity.
Qed.

(** A request of a role or playlist route hands nothing to the socket
    service. *)
Lemma dispatch_silent (m : Mutation) (w : World Store) :
  notification m = None →
  events (trace (dispatch svc m w).2) = events (trace w).
Proof.
  destruct m; intros [=]; cbn [dispatch].
  - rewrite createSelfAssignableRole_run. cbv zeta.
    destruct (GuildService.findSelfAssignableRole svc id
                (roleId selfAssignableRole) (store w))
      as [[[found|]|e] s']; cbn [fst snd trace];
      rewrite events_app; cbn; by rewrite app_nil_r.
  - unfold GuildController.deleteSelfAssignableRole, GuildController.call,
      await. cbn [snd trace]. rewrite events_app. cbn. by rewrite app_nil_r.
  - unfold GuildController.createSong, GuildController.call, void, bind, ret.
    cbn [fst snd store trace].
    destruct (GuildService.createSong svc id song (store w)) as [[a|e] s'];
      cbn [fst snd trace is_returned]; rewrite events_app; cbn;
      by rewrite app_nil_r.
  - unfold GuildController.clearPlaylist, GuildController.call.
    cbn [snd trace]. rewrite events_app. cbn. by rewrite app_nil_r.
  - unfold GuildController.deleteSongsByUserId, GuildController.call.
    cbn [snd trace]. rewrite events_app. cbn. by rewrite app_nil_r.
  - unfold GuildController.deleteSongById, GuildController.call.
    cbn [snd trace]. rewrite events_app. cbn. by rewrite app_nil_r.
Qed.

(** C2, amended: a request to a guild, suggestion, support-ticket,
    settings or user route whose service call resolves hands exactly one
    event to the socket service (the request body on create and update, the
    id or the composite key on delete) and none when the call rejects; a
    request to a self-assignable-role or playlist route hands over none,
    whether it succeeds, is answered 409 or rejects. *)
Theorem events_of_a_mutation (m : Mutation) (w : World Store) :
  let d := dispatch svc m w in
  events (trace d.2) =
    events (trace w) ++
    (if is_returned d.1
     then match notification m with Some ev => [ev] | None => [] end
     else [])
  ∧ notifying (aggregate m) =
    match notification m with Some _ => true | None => false end.
Proof.
  cbv zeta. split; [|by destruct m].
  destruct (notification m) as [ev|] eqn:Hn.
  - rewrite (dispatch_notifying m w ev Hn). cbv zeta.
    destruct ((commit svc m).2 (store w)) as [[a|e] s'];
      cbn [fst snd trace is_returned]; rewrite events_app; cbn;
      [by destruct ev | by rewrite app_nil_r].
  - rewrite (dispatch_silent m w Hn).
    destruct (is_returned _); by rewrite app_nil_r.
Qed.

(** C3: on every route that notifies, the event is emitted directly after
    the service call has resolved, with the store as that call left it, and
    when the service call rejects the method throws with no event
    emitted. *)
Theorem event_follows_resolved_commit (m : Mutation) (w : World Store)
    (ev : EventName * Payload) :
  notification m = Some ev →
  let r := (commit svc m).2 (store w) in
  let d := dispatch svc m w in
  store d.2 = r.2
  ∧ match r.1 with
    | Returned _ =>
      d.1 = Returned ()
      ∧ trace d.2 =
        trace w ++ [Called (commit svc m).1 true; Emitted ev.1 ev.2]
    | Threw e =>
      d.1 = Threw e
      ∧ trace d.2 = trace w ++ [Called (commit svc m).1 false]
    end.
Proof.
  intros Hn. cbv zeta. rewrite (dispatch_notifying m w ev Hn). cbv zeta.
  destruct ((commit svc m).2 (store w)) as [[a|e] s'];
    cbn [fst snd store trace]; done.
Qed.

(** C5: when the service's lookup resolves, GET /:id returns what it
    resolved to and does not throw; for an absent guild it writes status
    404, for a guild that exists it returns the guild and writes no
    status. *)
Theorem findById_absent_is_404 (id : string) (w : World Store)
    (found : option Guild) (s' : Store) :
  GuildService.findById svc id (store w) = (Returned found, s') →
  GuildController.findById svc id w =
  (Returned found,
   {| store := s';
      trace := trace w ++ Called s_findById true ::
               match found with
               | None => [StatusSent 404]
               | Some _ => []
               end |}).
Proof.
  intros Hf.
  unfold GuildController.findById, GuildController.call,
    GuildController.res_sendStatus, await, bind, ret.
  cbn [store trace fst snd]. rewrite Hf. cbn [fst snd is_returned].
  destruct found; cbn [store trace]; rewrite <- ?app_assoc; reflexivity.
Qed.

End ControllerProps.

(* ===================================================================== *)
(** * Properties: the controller on the guild service *)
(* ===================================================================== *)

Import SpecService.

Lemma count_rows_cons {X} (p : X → bool) (g : string) (r : string * X)
    (tbl : list (string * X)) :
  count_rows p g (r :: tbl)
  = ((if hit p g r then 1 else 0) + count_rows p g tbl)%nat.
Proof.
  unfold count_rows. rewrite filter_cons.
  destruct (hit p g r) eqn:Hh.
  - rewrite decide_True by done. reflexivity.
  - rewrite decide_False by congruence. reflexivity.
Qed.

Lemma count_rows_app {X} (p : X → bool) (g : string)
    (t1 t2 : list (string * X)) :
  count_rows p g (t1 ++ t2) = (count_rows p g t1 + count_rows p g t2)%nat.
Proof. unfold count_rows. by rewrite filter_app, length_app. Qed.

(** The lookup finds nothing exactly when no row qualifies. *)
Lemma lookup_row_None {X} (p : X → bool) (g : string)
    (tbl : list (string * X)) :
  lookup_row p g tbl = None ↔ count_rows p g tbl = 0%nat.
Proof.
  unfold lookup_row. induction tbl as [|r tbl IH].
  - done.
  - rewrite count_rows_cons. cbn [List.find].
    destruct (hit p g r); cbn [fmap option_fmap option_map].
    + split; [discriminate | lia].
    + exact IH.
Qed.

Lemma hit_own_role (id : string) (r : SRole) :
  hit (is_role (role_roleId r)) id (id, r) = true.
Proof.
  unfold hit, is_role. cbn [fst snd].
  by rewrite !bool_decide_eq_true_2.
Qed.

(** Removal keeps, in order, the rows that are not hit. *)
Lemma remove_rows_filter {X} (p : X → bool) (g : string)
    (tbl : list (string * X)) :
  remove_rows p g tbl = filter (λ r, hit p g r = false) tbl.
Proof.
  induction tbl as [|r tbl IH]; [done|].
  cbn [remove_rows]. rewrite filter_cons.
  destruct (hit p g r) eqn:Hh.
  - by rewrite decide_False by congruence.
  - rewrite decide_True by done. by rewrite IH.
Qed.

Lemma hit_requested_by (g u : string) (row : string * SSong) :
  hit (requested_by u) g row = true
  ↔ row.1 = g ∧ song_requestedBy row.2 = u.
Proof.
  unfold hit, requested_by.
  by rewrite andb_true_iff, !bool_decide_eq_true.
Qed.

(** C1: POST /:id/self-assignable-roles first looks the role up by
    (guild, roleId); when one is found it answers 409 and the service's
    create is not called, the store being as the lookup left it; when none
    is found it calls the service's create and ends as that call ends.  On
    the guild service, from a store that holds the role at most once, the
    same creation issued twice leaves exactly one row for (guild, roleId),
    and the second call answers 409 and writes nothing. *)
Theorem createSelfAssignableRole_rejects_duplicate :
  (∀ (E : Entities) (S : Type) (svc : GuildService.Interface S)
     (id : string) (r : GuildSelfAssignableRole) (w : World S),
     GuildController.createSelfAssignableRole svc id r w =
     let l := GuildService.findSelfAssignableRole svc id (roleId r) (store w) in
     match l.1 with
     | Returned (Some _) =>
       (Returned (),
        {| store := l.2;
           trace := trace w ++ [Called s_findSelfAssignableRole true;
                                StatusSent 409] |})
     | Returned None =>
       let c := GuildService.createSelfAssignableRole svc id r l.2 in
       (c.1,
        {| store := c.2;
           trace := trace w ++ [Called s_findSelfAssignableRole true;
                                Called s_createSelfAssignableRole
                                  (is_returned c.1)] |})
     | Threw e =>
       (Threw e,
        {| store := l.2;
           trace := trace w ++ [Called s_findSelfAssignableRole false] |})
     end)
  ∧ (∀ (s : Store) (id : string) (r : SRole),
       (count_rows (is_role (role_roleId r)) id (roles s) ≤ 1)%nat →
       let d1 := GuildController.createSelfAssignableRole service id r
                   (fresh s) in
       let d2 := GuildController.createSelfAssignableRole service id r
                   (fresh (store d1.2)) in
       d1.1 = Returned ()
       ∧ roles (store d1.2) =
         (if decide (count_rows (is_role (role_roleId r)) id (roles s) = 0%nat)
          then roles s ++ [(id, r)] else roles s)
       ∧ count_rows (is_role (role_roleId r)) id (roles (store d2.2)) = 1%nat
       ∧ d2 = (Returned (),
               {| store := store d1.2;
                  trace := [Called s_findSelfAssignableRole true;
                            StatusSent 409] |})).
Proof.
  split.
  - intros E S svc id r w. apply createSelfAssignableRole_run.
  - intros s id r Hle. cbv zeta.
    rewrite !createSelfAssignableRole_run. cbv zeta.
    cbn [service GuildService.findSelfAssignableRole
         GuildService.createSelfAssignableRole roleId entities].
    unfold sp_findSelfAssignableRole, sp_createSelfAssignableRole, ok, fresh.
    cbn [store trace fst snd].
    destruct (lookup_row (is_role (role_roleId r)) id (roles s))
      as [found|] eqn:Hfind.
    + assert (Hc : count_rows (is_role (role_roleId r)) id (roles s) ≠ 0%nat).
      { intros Hz. apply lookup_row_None in Hz. congruence. }
      cbn [store trace fst snd]. rewrite Hfind. cbn [store trace fst snd].
      rewrite decide_False by done.
      repeat split; [lia].
    + assert (Hc : count_rows (is_role (role_roleId r)) id (roles s) = 0%nat)
        by by apply lookup_row_None.
      cbn [store trace fst snd is_returned set_roles roles app].
      assert (Hone : count_rows (is_role (role_roleId r)) id
                       (roles s ++ [(id, r)]) = 1%nat).
      { rewrite count_rows_app, count_rows_cons, hit_own_role, Hc.
        reflexivity. }
      destruct (lookup_row (is_role (role_roleId r)) id (roles s ++ [(id, r)]))
        as [found|] eqn:Hfind2.
      * cbn [store trace fst snd roles]. rewrite decide_True by done.
        repeat split; done.
      * apply lookup_row_None in Hfind2. congruence.
Qed.

Lemma createSelfAssignableRole_rejects_duplicate_witness :
  (count_rows (is_role (role_roleId Samples.r1)) "g1" (roles Samples.store_g1)
   ≤ 1)%nat
  ∧ count_rows (is_role (role_roleId Samples.r1)) "g1"
      (roles (store
         (GuildController.createSelfAssignableRole service "g1" Samples.r1
            (fresh (store
               (GuildController.createSelfAssignableRole service "g1"
                  Samples.r1 (fresh Samples.store_g1)).2))).2))
    = 1%nat.
Proof.
  assert (H : (count_rows (is_role (role_roleId Samples.r1)) "g1"
                 (roles Samples.store_g1) ≤ 1)%nat).
  { vm_compute. lia. }
  split; [exact H|].
  exact (proj1 (proj2 (proj2
    (proj2 createSelfAssignableRole_rejects_duplicate
       Samples.store_g1 "g1" Samples.r1 H)))).
Defined.

(** C8: on the guild service, DELETE /:id/playlist/user/:userId makes one
    service call, which resolves, and leaves in the songs table exactly the
    rows that are not both under guild [g] and requested by [u], in their
    order; every other table is as it was. *)
Theorem deleteSongsByUserId_removes_all_and_only (s : Store) (g u : string) :
  let d := GuildController.deleteSongsByUserId service g u (fresh s) in
  d.1 = Returned ()
  ∧ trace d.2 = [Called s_deleteSongsByUserId true]
  ∧ songs (store d.2) =
    filter (λ row, ¬ (row.1 = g ∧ song_requestedBy row.2 = u)) (songs s)
  ∧ (∀ row, row ∈ songs (store d.2)
            ↔ row ∈ songs s ∧ ¬ (row.1 = g ∧ song_requestedBy row.2 = u))
  ∧ guilds (store d.2) = guilds s
  ∧ users (store d.2) = users s
  ∧ suggestions (store d.2) = suggestions s
  ∧ tickets (store d.2) = tickets s
  ∧ roles (store d.2) = roles s.
Proof.
  cbv zeta.
  unfold GuildController.deleteSongsByUserId, GuildController.call, fresh.
  cbn [service GuildService.deleteSongsByUserId store trace fst snd app].
  unfold sp_deleteSongsByUserId, ok.
  cbn [fst snd is_returned set_songs songs guilds users suggestions tickets
       roles].
  assert (Hf : remove_rows (requested_by u) g (songs s) =
               filter (λ row, ¬ (row.1 = g ∧ song_requestedBy row.2 = u))
                 (songs s)).
  { rewrite remove_rows_filter. apply list_filter_iff. intros row.
    rewrite <- hit_requested_by. by destruct (hit (requested_by u) g row). }
  split; [done|]. split; [done|]. split; [exact Hf|]. split; [|done].
  intros row. rewrite Hf, list_elem_of_filter. tauto.
Qed.

Example songs_of_one_requester_removed :
  songs (store (GuildController.deleteSongsByUserId service "g1" "u1"
    (fresh (set_songs empty
       [("g1", Samples.song_of "u1"); ("g1", Samples.song_of "u2");
        ("g2", Samples.song_of "u1"); ("g1", Samples.song_of "u1")]))).2)
  = [("g1", Samples.song_of "u2"); ("g2", Samples.song_of "u1")].
Proof. reflexivity. Qed.

(** C2, as stated, fails on the playlist: a song is created, the call
    resolves, the row is stored, and no event is emitted. *)
Lemma createSong_emits_no_event :
  let d := dispatch service (POST_song "g1" (Samples.song_of "u1"))
             (fresh Samples.store_g1) in
  d.1 = Returned ()
  ∧ songs (store d.2) =
    [("g1", {| song_id := Some 1; song_requestedBy := "u1" |})]
  ∧ aggregate (POST_song "g1" (Samples.song_of "u1")) = PlaylistSongs
  ∧ events (trace d.2) = [].
Proof. repeat split. Qed.

Lemma event_follows_resolved_commit_witness :
  notification (POST_guild Samples.g1)
  = Some (GUILD_CREATE, P_guild Samples.g1)
  ∧ trace (dispatch service (POST_guild Samples.g1) (fresh empty)).2
    = [Called s_create true; Emitted GUILD_CREATE (P_guild Samples.g1)]
  ∧ trace (dispatch service (POST_guild Samples.g1)
             (fresh Samples.store_g1)).2
    = [Called s_create false].
Proof.
  split; [reflexivity|]. split.
  - exact (proj2 (proj2 (event_follows_resolved_commit service
             (POST_guild Samples.g1) (fresh empty)
             (GUILD_CREATE, P_guild Samples.g1) eq_refl))).
  - exact (proj2 (proj2 (event_follows_resolved_commit service
             (POST_guild Samples.g1) (fresh Samples.store_g1)
             (GUILD_CREATE, P_guild Samples.g1) eq_refl))).
Defined.

Lemma findById_absent_is_404_witness :
  GuildService.findById service "g2" (store (fresh Samples.store_g1))
  = (Returned None, Samples.store_g1)
  ∧ GuildController.findById service "g2" (fresh Samples.store_g1)
    = (Returned None,
       {| store := Samples.store_g1;
          trace := [Called s_findById true; StatusSent 404] |})
  ∧ GuildController.findById service "g1" (fresh Samples.store_g1)
    = (Returned (Some Samples.g1),
       {| store := Samples.store_g1; trace := [Called s_findById true] |}).
Proof.
  split; [reflexivity|]. split.
  - exact (findById_absent_is_404 service "g2" (fresh Samples.store_g1)
             None Samples.store_g1 eq_refl).
  - exact (findById_absent_is_404 service "g1" (fresh Samples.store_g1)
             (Some Samples.g1) Samples.store_g1 eq_refl).
Defined.

(** The scenarios of the spec, run on the controller. *)
Example scenario_role_created_twice :
  let d1 := GuildController.createSelfAssignableRole service "g1" Samples.r1
              (fresh Samples.store_g1) in
  let d2 := GuildController.createSelfAssignableRole service "g1" Samples.r1
              (fresh (store d1.2)) in
  statuses (trace d1.2) = []
  ∧ statuses (trace d2.2) = [409]
  ∧ calls (trace d2.2) = [s_findSelfAssignableRole]
  ∧ (GuildController.findSelfAssignableRoles service "g1" (fresh (store d2.2))).1
    = Returned [Samples.r1].
Proof. repeat split. Qed.

Example scenario_events_of_guild_lifecycle :
  let d1 := dispatch service (POST_guild Samples.g1) (fresh empty) in
  let d2 := dispatch service (DELETE_guild "g1") d1.2 in
  let d3 := dispatch service (DELETE_guild "g1") d2.2 in
  events (trace d3.2)
  = [(GUILD_CREATE, P_guild Samples.g1); (GUILD_DELETE, P_id "g1")]
  ∧ d3.1 = Threw NotFoundError.
Proof. repeat split. Qed.

(* ===================================================================== *)
(** * Further properties: the guild controller, route by route *)
(* ===================================================================== *)

Section RouteProps.
Context `{Entities} {Store : Type}.
Variable svc : GuildService.Interface Store.

Lemma statuses_app (t1 t2 : list Effect) :
  statuses (t1 ++ t2) = statuses t1 ++ statuses t2.
Proof. apply omap_app. Qed.

Lemma calls_app (t1 t2 : list Effect) :
  calls (t1 ++ t2) = calls t1 ++ calls t2.
Proof. apply omap_app. Qed.

(** Every mutation route but role creation, in full: one service call,
    then the event if the route has one and the call resolved. *)
Lemma dispatch_run (m : Mutation) (w : World Store) :
  is_role_creation m = false →
  dispatch svc m w =
  let r := (commit svc m).2 (store w) in
  (r.1,
   {| store := r.2;
      trace := trace w ++
        Called (commit svc m).1 (is_returned r.1) ::
        (if is_returned r.1
         then match notification m with
              | Some ev => [Emitted ev.1 ev.2]
              | None => []
              end
         else []) |}).
Proof.
  intros Hrc. destruct (notification m) as [ev|] eqn:Hn.
  - rewrite (dispatch_notifying svc m w ev Hn). cbv zeta.
    destruct ((commit svc m).2 (store w)) as [[[]|e] s'];
      cbn [fst snd is_returned]; reflexivity.
  - destruct m; try discriminate Hn; try discriminate Hrc;
      cbn [dispatch commit fst snd];
      unfold GuildController.deleteSelfAssignableRole,
        GuildController.createSong, GuildController.clearPlaylist,
        GuildController.deleteSongsByUserId, GuildController.deleteSongById,
        GuildController.call, void, forget, await, bind, ret;
      cbn [store trace fst snd];
      match goal with
      | |- context [?f (store w)] => destruct (f (store w)) as [[a|e] s']
      end; cbn [fst snd is_returned store trace];
      try destruct a; reflexivity.
Qed.

(** What one request adds to the events. *)
Lemma dispatch_events (m : Mutation) (w : World Store) :
  events (trace (dispatch svc m w).2) =
  events (trace w) ++
  (if is_returned (dispatch svc m w).1
   then match notification m with Some ev => [ev] | None => [] end
   else []).
Proof.
  destruct (notification m) as [ev|] eqn:Hn.
  - rewrite (dispatch_notifying svc m w ev Hn). cbv zeta.
    destruct ((commit svc m).2 (store w)) as [[a|e] s'];
      cbn [fst snd trace is_returned]; rewrite events_app; cbn;
      [by destruct ev | by rewrite app_nil_r].
  - rewrite (dispatch_silent svc m w Hn).
    destruct (is_returned _); by rewrite app_nil_r.
Qed.

(** X1: every mutation route other than role creation is one service
    call: the method ends as the call ends, leaves the store as the call
    left it, and writes no status code, whether the call resolves or
    rejects. *)
Theorem mutation_is_one_service_call (m : Mutation) (w : World Store) :
  is_role_creation m = false →
  let r := (commit svc m).2 (store w) in
  let d := dispatch svc m w in
  d.1 = r.1
  ∧ store d.2 = r.2
  ∧ calls (trace d.2) = calls (trace w) ++ [(commit svc m).1]
  ∧ statuses (trace d.2) = statuses (trace w).
Proof.
  intros Hrc. cbv zeta. rewrite (dispatch_run m w Hrc). cbv zeta.
  cbn [fst snd store trace]. rewrite calls_app, statuses_app.
  repeat split.
  - cbn [calls omap]. f_equal.
    destruct (is_returned _); [destruct (notification m)|]; reflexivity.
  - cbn [statuses omap].
    destruct (is_returned _); [destruct (notification m)|];
      cbn; by rewrite app_nil_r.
Qed.

(** X2: a mutation request that throws has written no status code and
    emitted no event, and the last thing it did was a service call that
    rejected: a rejection is rethrown as it is, not turned into a
    response. *)
Theorem thrown_mutation_is_silent (m : Mutation) (w : World Store)
    (e : ServiceError) :
  (dispatch svc m w).1 = Threw e →
  events (trace (dispatch svc m w).2) = events (trace w)
  ∧ statuses (trace (dispatch svc m w).2) = statuses (trace w)
  ∧ ∃ method, last (trace (dispatch svc m w).2) = Some (Called method false).
Proof.
  destruct (is_role_creation m) eqn:Hrc.
  - destruct m; try discriminate Hrc. cbn [dispatch].
    rewrite createSelfAssignableRole_run. cbv zeta.
    destruct (GuildService.findSelfAssignableRole svc id
                (roleId selfAssignableRole) (store w))
      as [[[found|]|e'] s']; cbn [fst snd trace].
    + discriminate.
    + destruct (GuildService.createSelfAssignableRole svc id
                  selfAssignableRole s') as [[[]|e''] s''];
        cbn [fst snd is_returned]; [discriminate|].
      intros _. rewrite events_app, statuses_app. cbn.
      rewrite !app_nil_r. repeat split.
      exists s_createSelfAssignableRole.
      by rewrite (last_app_cons _ [_]).
    + intros _. rewrite events_app, statuses_app. cbn.
      rewrite !app_nil_r. repeat split.
      exists s_findSelfAssignableRole. by rewrite last_snoc.
  - rewrite (dispatch_run m w Hrc). cbv zeta. cbn [fst snd trace].
    destruct ((commit svc m).2 (store w)) as [[[]|e'] s'];
      cbn [fst snd is_returned]; [discriminate|].
    intros _. rewrite events_app, statuses_app. cbn.
    rewrite !app_nil_r. repeat split.
    exists (commit svc m).1. by rewrite last_snoc.
Qed.

End RouteProps.

Section ReadProps.
Context `{Entities} {Store : Type}.
Variable svc : GuildService.Interface Store.

(** X3: every GET route is one service call whose reply it passes on, with
    the store as the call left it and no event; the only status code a GET
    route writes is 404, on GET /:id when the guild is absent, so an absent
    suggestion, ticket, settings, user or role is returned as absent with
    no 404, and a rejected call is rethrown with no status. *)
Theorem get_route_passes_reply_on (q : Query) (w : World Store) :
  fetch svc q w =
  let r := (read svc q).2 (store w) in
  (r.1,
   {| store := r.2;
      trace := trace w ++
        Called (read svc q).1 (is_returned r.1) ::
        (if is_absent_guild r.1 then [StatusSent 404] else []) |}).
Proof.
  destruct q; cbn [fetch read fst snd];
    unfold GuildController.find, GuildController.findById,
      GuildController.findSuggestions, GuildController.findSuggestionById,
      GuildController.findSupportTickets,
      GuildController.findSupportTicketById,
      GuildController.findSettingsById, GuildController.findUsers,
      GuildController.findUserById, GuildController.findSelfAssignableRoles,
      GuildController.findSelfAssignableRole, GuildController.findPlaylist,
      GuildController.findSongsByUserId, GuildController.call,
      GuildController.res_sendStatus, through, await, bind, ret;
    cbn [store trace fst snd];
    match goal with
    | |- context [?f (store w)] => destruct (f (store w)) as [[a|e] s']
    end; cbn [fst snd is_returned is_absent_guild store trace];
    try (destruct a; cbn [store trace]); rewrite <- ?app_assoc; reflexivity.
Qed.


(** Role creation is its lookup followed by its resumption. *)
Lemma createSelfAssignableRole_split (id : string)
    (r : GuildSelfAssignableRole) (w : World Store) :
  GuildController.createSelfAssignableRole svc id r w =
  role_resume svc id r (role_lookup svc id r w).1 (role_lookup svc id r w).2.
Proof.
  unfold GuildController.createSelfAssignableRole, role_resume, role_lookup,
    await, bind, throw.
  destruct (GuildController.findSelfAssignableRole svc id (roleId r) w)
    as [[[found|]|e] w']; reflexivity.
Qed.

(** X5: when two role creations under one guild are both at their
    [await] before either is resumed, and each lookup found nothing, both
    go on to the service's create, the second on the store the first create
    left; neither looks again and no 409 is written. *)
Theorem interleaved_creations_both_insert (id : string)
    (ra rb : GuildSelfAssignableRole) (w : World Store) :
  GuildService.findSelfAssignableRole svc id (roleId ra) (store w)
  = (Returned None, store w) →
  GuildService.findSelfAssignableRole svc id (roleId rb) (store w)
  = (Returned None, store w) →
  let ca := GuildService.createSelfAssignableRole svc id ra (store w) in
  let cb := GuildService.createSelfAssignableRole svc id rb ca.2 in
  interleaved_creation svc id ra rb w =
  (ca.1, cb.1,
   {| store := cb.2;
      trace := trace w ++
        [Called s_findSelfAssignableRole true;
         Called s_findSelfAssignableRole true;
         Called s_createSelfAssignableRole (is_returned ca.1);
         Called s_createSelfAssignableRole (is_returned cb.1)] |}).
Proof.
  intros Ha Hb. cbv zeta.
  unfold interleaved_creation, role_lookup, role_resume,
    GuildController.findSelfAssignableRole, GuildController.call, await.
  cbn [store trace fst snd]. rewrite Ha. cbn [store trace fst snd].
  rewrite Hb. cbn [store trace fst snd is_returned].
  rewrite <- !app_assoc. reflexivity.
Qed.

(** X6: over any sequence of mutation requests the events already emitted
    stay in place, and what is added is, in request order, at most the one
    event of each request: nothing is emitted twice, out of order, or for a
    role or playlist route. *)
Theorem served_requests_emit_in_order (ms : list Mutation)
    (w : World Store) :
  ∃ added,
    events (trace (serve_all svc ms w)) = events (trace w) ++ added
    ∧ added `sublist_of` omap notification ms.
Proof.
  revert w. induction ms as [|m ms IH]; intros w.
  - exists []. split; [by rewrite app_nil_r | constructor].
  - cbn [serve_all fold_left].
    destruct (IH (dispatch svc m w).2) as (added & Heq & Hsub).
    unfold serve_all in Heq. rewrite Heq, dispatch_events.
    assert (Hom : omap notification (m :: ms) =
                  match notification m with
                  | Some ev => ev :: omap notification ms
                  | None => omap notification ms
                  end) by reflexivity.
    rewrite Hom.
    destruct (is_returned (dispatch svc m w).1);
      destruct (notification m) as [ev|].
    + exists (ev :: added). split; [by rewrite <- app_assoc|].
      by apply sublist_skip.
    + exists added. by rewrite app_nil_r.
    + exists added. rewrite app_nil_r. split; [done|].
      by apply sublist_cons.
    + exists added. by rewrite app_nil_r.
Qed.

End ReadProps.

(* ===================================================================== *)
(** * Further properties: premium lookup *)
(* ===================================================================== *)

Section PremiumUsersProps.
Import UserController.

(** [getPremiumUsers], path by path. *)
Lemma getPremiumUsers_cases (config : Config) (client : CommandoClient) :
  (getPremiumUsers config client = None
   ∧ (premium_config_absent config ∨ primary_guild config client = None))
  ∨ (∃ guild rid,
       ¬ premium_config_absent config
       ∧ primary_guild config client = Some guild
       ∧ premium_role config = Some rid
       ∧ getPremiumUsers config client
         = Some (filter (λ kv, rid ∈ roles kv.2) (members guild))).
Proof.
  unfold getPremiumUsers, premium_config_absent, primary_guild, premium_role.
  destruct (optional_premium config) as [premium|]; [|left; by auto].
  simpl.
  destruct (truthy (premiumPatreonRoleId premium)) eqn:Hr;
    [|left; by auto].
  destruct (truthy (primaryGuildId premium)) eqn:Hg; [|left; by auto].
  apply truthy_Some in Hr as (rid & Hr & Hrne).
  apply truthy_Some in Hg as (gid & Hg & Hgne).
  rewrite Hr, Hg. simpl.
  destruct (guilds client !! gid) as [guild|] eqn:Hguild; [|left; by auto].
  right. exists guild, rid. split; [|done].
  intros [?|?]; discriminate.
Qed.

(** X7: [getPremiumUsers] returns nothing exactly when the premium
    configuration is absent or the primary guild is not cached; otherwise
    it returns exactly the members of the primary guild that hold the
    premium role, each with its member record. *)
Theorem getPremiumUsers_are_role_holders (config : Config)
    (client : CommandoClient) :
  match getPremiumUsers config client with
  | None => premium_config_absent config ∨ primary_guild config client = None
  | Some users =>
    ∃ guild rid,
      ¬ premium_config_absent config
      ∧ primary_guild config client = Some guild
      ∧ premium_role config = Some rid
      ∧ ∀ id member,
          users !! id = Some member
          ↔ members guild !! id = Some member ∧ rid ∈ roles member
  end.
Proof.
  destruct (getPremiumUsers_cases config client)
    as [[-> Hn]|(guild & rid & Hc & Hg & Hr & ->)]; [done|].
  exists guild, rid. repeat (split; [done|]).
  intros id member. by rewrite map_lookup_filter_Some.
Qed.

(** X8: for an id the client does not own, [userHasPremium] is true
    exactly when [getPremiumUsers] returns a collection that has the id. *)
Theorem userHasPremium_agrees_with_getPremiumUsers (config : Config)
    (client : CommandoClient) (id : string) :
  isOwner client id = false →
  (userHasPremium config id client = true
   ↔ ∃ users, getPremiumUsers config client = Some users
              ∧ is_Some (users !! id)).
Proof.
  intros Hno. rewrite userHasPremium_true_iff. split.
  - intros (premium & rid & gid & guild & member
            & Hp & Hr & Hrne & Hg & Hgne & Hguild & Hm & Hor).
    destruct Hor as [Ho|Hin]; [congruence|].
    destruct (getPremiumUsers_cases config client)
      as [[_ Hn]|(guild' & rid' & Hc & Hg' & Hr' & Hget)].
    + exfalso. unfold premium_config_absent, primary_guild in Hn.
      rewrite Hp in Hn. simpl in Hn. rewrite Hr, Hg in Hn. simpl in Hn.
      rewrite !bool_decide_eq_false_2 in Hn by done. simpl in Hn.
      destruct Hn as [[?|?]|?]; congruence.
    + exists (filter (λ kv, rid' ∈ roles kv.2) (members guild')).
      split; [done|]. exists member. apply map_lookup_filter_Some.
      unfold primary_guild, premium_role in *. rewrite Hp in Hg', Hr'.
      simpl in Hg', Hr'. rewrite Hg in Hg'. simpl in Hg'.
      assert (guild' = guild) as -> by congruence.
      assert (rid' = rid) as -> by congruence. done.
  - intros (users & Hget & member & Hm).
    destruct (getPremiumUsers_cases config client)
      as [[Hnone _]|(guild & rid & Hc & Hg & Hr & Hget')]; [congruence|].
    rewrite Hget in Hget'. injection Hget' as ->.
    apply map_lookup_filter_Some in Hm as [Hm Hin]. simpl in Hin.
    unfold primary_guild, premium_role, premium_config_absent in *.
    destruct (optional_premium config) as [premium|]; [|discriminate].
    simpl in Hg, Hr.
    destruct (primaryGuildId premium) as [gid|] eqn:Hgid; [|discriminate].
    simpl in Hg. rewrite Hr in Hc. simpl in Hc.
    exists premium, rid, gid, guild, member.
    split; [done|]. split; [done|]. split.
    { intros ->. apply Hc. by left. }
    split; [done|]. split.
    { intros ->. apply Hc. by right. }
    auto.
Qed.

(** X9: [userHasPremium] reads the client only for the primary guild and
    for whether it owns the id: two clients that agree on these give the
    same answer, whatever other guilds they cache and whatever roles the
    id holds there. *)
Theorem userHasPremium_reads_primary_guild_only (config : Config)
    (client client' : CommandoClient) (id : string) :
  primary_guild config client = primary_guild config client' →
  isOwner client id = isOwner client' id →
  userHasPremium config id client = userHasPremium config id client'.
Proof.
  unfold userHasPremium, primary_guild. intros Hg Ho.
  destruct (optional_premium config) as [premium|]; [|done].
  simpl in Hg.
  destruct (truthy (premiumPatreonRoleId premium)); [|done].
  destruct (truthy (primaryGuildId premium)) eqn:Ht; [|done].
  apply truthy_Some in Ht as (gid & Hgid & _).
  rewrite Hgid in *. simpl in *. by rewrite Hg, Ho.
Qed.

End PremiumUsersProps.

(* ===================================================================== *)
(** * Further properties: entity constructors and the moderation tables *)
(* ===================================================================== *)

(** X10: constructing from an instance that was itself constructed from a
    snapshot gives what constructing from the snapshot gives at that later
    time: a copy of a warning or kick is the warning or kick, and a copy of
    a referral is the referral stamped anew. *)
Theorem construct_from_instance (c : EntityClass) (t1 t2 : Z) (s : Obj) :
  construct c t2 (Some (construct c t1 (Some s))) = construct c t2 (Some s).
Proof.
  destruct c; cbn [construct].
  - by rewrite !new_GuildUserWarning_snapshot.
  - by rewrite !new_GuildUserKick_snapshot.
  - rewrite !new_Referral_snapshot. apply insert_insert_eq.
Qed.

(** X11: an instance has the properties of the snapshot and the ones the
    constructor stamps, and no other; constructed with no snapshot, a
    warning or a kick has no property at all and a referral has
    [dateCreated] only. *)
Theorem construct_properties (c : EntityClass) (now : Z) (s : option Obj) :
  dom (construct c now s) = dom (default ∅ s) ∪ list_to_set (stamped c).
Proof.
  assert (Hnone : ∀ X : gset string, X ∪ list_to_set [] = X).
  { intros X. cbn [list_to_set]. apply (right_id_L ∅ (∪)). }
  assert (Hone : ∀ X : gset string,
            {["dateCreated"]} ∪ X = X ∪ list_to_set ["dateCreated"]).
  { intros X. cbn [list_to_set]. rewrite (right_id_L ∅ (∪)).
    apply (comm_L (∪)). }
  destruct c, s as [s|]; cbn [construct stamped]; simpl default.
  - by rewrite new_GuildUserWarning_snapshot, Hnone.
  - unfold new_GuildUserWarning. by rewrite Hnone.
  - by rewrite new_GuildUserKick_snapshot, Hnone.
  - unfold new_GuildUserKick. by rewrite Hnone.
  - rewrite new_Referral_snapshot, dom_insert_L. apply Hone.
  - unfold new_Referral. rewrite dom_insert_L. apply Hone.
Qed.

(** What a run of inserts keeps, from any table. *)
Lemma insert_all_keeps (c : ModerationClass) (rs table : list ModerationRecord)
    (r : ModerationRecord) :
  r ∈ insert_all (moderation_properties c) table rs
  ↔ (r ∈ table)
    ∨ ((rec_user r ∉ rec_user <$> table)
       ∧ ∃ pre post, rs = pre ++ r :: post
                     ∧ (rec_user r ∉ rec_user <$> pre)).
Proof.
  revert table. induction rs as [|a rs IH]; intros table.
  - cbn [insert_all fold_left]. split; [by left|].
    intros [?|(_ & pre & post & Heq & _)]; [done|].
    by destruct pre.
  - cbn [insert_all fold_left].
    change (fold_left _ rs ?t) with (insert_all (moderation_properties c) t rs).
    rewrite IH. clear IH.
    destruct (insert_record (moderation_properties c) table a) as [t'|] eqn:Hi.
    + assert (Ha : rec_user a ∉ rec_user <$> table).
      { intros Hin. apply (insert_record_rejects c) in Hin. congruence. }
      unfold insert_record in Hi. rewrite moderation_unique_indexes in Hi.
      destruct (violates _ _ _); [discriminate|]. injection Hi as <-.
      cbn [default from_option id]. rewrite fmap_app, !elem_of_app.
      cbn [fmap list_fmap]. rewrite !list_elem_of_singleton.
      split.
      * intros [[Hin| ->]|(Hn & pre & post & -> & Hpre)].
        -- by left.
        -- right. split; [done|]. exists [], rs. split; [done|].
           cbn. apply not_elem_of_nil.
        -- right. split; [tauto|]. exists (a :: pre), post.
           split; [done|]. cbn. rewrite not_elem_of_cons. tauto.
      * intros [Hin|(Hn & pre & post & Heq & Hpre)]; [by left; left|].
        destruct pre as [|a' pre]; cbn in Heq; injection Heq as -> ->.
        -- by left; right.
        -- cbn in Hpre. apply not_elem_of_cons in Hpre as [Hne Hpre].
           right. split; [|by exists pre, post].
           intros [?|?]; [done|congruence].
    + apply (insert_record_rejects c) in Hi. cbn [default from_option id].
      split.
      * intros [Hin|(Hn & pre & post & -> & Hpre)]; [by left|].
        right. split; [done|]. exists (a :: pre), post. split; [done|].
        cbn. rewrite not_elem_of_cons. split; [congruence|done].
      * intros [Hin|(Hn & pre & post & Heq & Hpre)]; [by left|].
        destruct pre as [|a' pre]; cbn in Heq; injection Heq as -> ->.
        -- done.
        -- cbn in Hpre. apply not_elem_of_cons in Hpre as [Hne Hpre].
           right. split; [done|]. by exists pre, post.
Qed.

(** X13: under the unique index on [user], of the records inserted into
    an empty table the one kept against a target is the first one inserted
    against it: a record is stored exactly when no record before it in the
    run has the same target, so every later warning or kick of that user is
    rejected. *)
Theorem first_record_per_target_is_kept (c : ModerationClass)
    (rs : list ModerationRecord) (r : ModerationRecord) :
  r ∈ insert_all (moderation_properties c) [] rs
  ↔ ∃ pre post, rs = pre ++ r :: post ∧ (rec_user r ∉ rec_user <$> pre).
Proof.
  rewrite insert_all_keeps. split.
  - intros [Hin|[_ ?]]; [by apply elem_of_nil in Hin | done].
  - intros ?. right. split; [apply not_elem_of_nil | done].
Qed.

(* ===================================================================== *)
(** * Further properties: the token request *)
(* ===================================================================== *)

Lemma string_app_assoc (a b c : string) : (a +:+ b) +:+ c = a +:+ b +:+ c.
Proof.
  induction a as [|x a IH]; [done|].
  change (String x ((a +:+ b) +:+ c) = String x (a +:+ b +:+ c)).
  by rewrite IH.
Qed.

(** X12: [code] and [redirect] go into the URL as they are, with no
    encoding, so the request does not tell where the code ends: a code that
    carries ["&redirect_uri="] gives the very request of the shorter code
    with the rest moved into the redirect. *)
Theorem token_url_is_not_encoded (st : Authentication.ModuleState)
    (code rest redirect : string) :
  Authentication.getDiscordAccessToken st
    (code +:+ "&redirect_uri=" +:+ rest) redirect
  = Authentication.getDiscordAccessToken st
      code (rest +:+ "&redirect_uri=" +:+ redirect).
Proof.
  unfold Authentication.getDiscordAccessToken. f_equal.
  by rewrite <- !string_app_assoc.
Qed.

(* ===================================================================== *)
(** * The further properties at sample inputs *)
(* ===================================================================== *)

Lemma mutation_is_one_service_call_witness :
  is_role_creation (DELETE_song "g1" 7) = false
  ∧ (dispatch service (DELETE_song "g1" 7) (fresh Samples.store_g1)).1
    = Threw NotFoundError
  ∧ store (dispatch service (DELETE_song "g1" 7) (fresh Samples.store_g1)).2
    = Samples.store_g1
  ∧ calls (trace (dispatch service (DELETE_song "g1" 7)
                    (fresh Samples.store_g1)).2)
    = [s_deleteSong]
  ∧ statuses (trace (dispatch service (DELETE_song "g1" 7)
                       (fresh Samples.store_g1)).2)
    = [].
Proof.
  split; [reflexivity|].
  exact (mutation_is_one_service_call service (DELETE_song "g1" 7)
           (fresh Samples.store_g1) eq_refl).
Defined.

Lemma thrown_mutation_is_silent_witness :
  (dispatch service (PUT_guild "g2" Samples.g1) (fresh Samples.store_g1)).1
  = Threw NotFoundError
  ∧ events (trace (dispatch service (PUT_guild "g2" Samples.g1)
                     (fresh Samples.store_g1)).2)
    = []
  ∧ statuses (trace (dispatch service (PUT_guild "g2" Samples.g1)
                       (fresh Samples.store_g1)).2)
    = []
  ∧ ∃ method,
      last (trace (dispatch service (PUT_guild "g2" Samples.g1)
                     (fresh Samples.store_g1)).2)
      = Some (Called method false).
Proof.
  split; [reflexivity|].
  exact (thrown_mutation_is_silent service (PUT_guild "g2" Samples.g1)
           (fresh Samples.store_g1) NotFoundError eq_refl).
Defined.


Lemma interleaved_creations_both_insert_witness :
  GuildService.findSelfAssignableRole service "g1" (roleId Samples.r1)
    Samples.store_g1
  = (Returned None, Samples.store_g1)
  ∧ interleaved_creation service "g1" Samples.r1 Samples.r1
      (fresh Samples.store_g1)
    = (Returned (), Returned (),
       {| store := set_roles Samples.store_g1
                     [("g1", Samples.r1); ("g1", Samples.r1)];
          trace := [Called s_findSelfAssignableRole true;
                    Called s_findSelfAssignableRole true;
                    Called s_createSelfAssignableRole true;
                    Called s_createSelfAssignableRole true] |}).
Proof.
  split; [reflexivity|].
  exact (interleaved_creations_both_insert service "g1" Samples.r1 Samples.r1
           (fresh Samples.store_g1) eq_refl eq_refl).
Defined.

Lemma userHasPremium_agrees_with_getPremiumUsers_witness :
  UserController.isOwner Samples.client "alice" = false
  ∧ (UserController.userHasPremium Samples.premium_config "alice"
       Samples.client = true
     ↔ ∃ users,
         UserController.getPremiumUsers Samples.premium_config Samples.client
         = Some users
         ∧ is_Some (users !! "alice")).
Proof.
  split; [reflexivity|].
  exact (userHasPremium_agrees_with_getPremiumUsers Samples.premium_config
           Samples.client "alice" eq_refl).
Defined.

Lemma userHasPremium_reads_primary_guild_only_witness :
  UserController.primary_guild Samples.premium_config Samples.client
  = UserController.primary_guild Samples.premium_config
      MoreSamples.client_two_guilds
  ∧ UserController.userHasPremium Samples.premium_config "bob" Samples.client
    = UserController.userHasPremium Samples.premium_config "bob"
        MoreSamples.client_two_guilds.
Proof.
  split; [reflexivity|].
  exact (userHasPremium_reads_primary_guild_only Samples.premium_config
           Samples.client MoreSamples.client_two_guilds "bob"
           eq_refl eq_refl).
Defined.

Example absent_child_is_no_404 :
  (fetch service (GET_user "g1" "nobody") (fresh Samples.store_g1)).1
  = Returned (R_user None)
  ∧ statuses (trace (fetch service (GET_user "g1" "nobody")
                       (fresh Samples.store_g1)).2)
    = []
  ∧ statuses (trace (fetch service (GET_guild "g2")
                       (fresh Samples.store_g1)).2)
    = [404].
Proof. repeat split. Qed.

Example second_warning_of_a_user_is_dropped :
  insert_all (moderation_properties Warning) []
    [Samples.warning_by_mod1; Samples.warning_by_mod2]
  = [Samples.warning_by_mod1].
Proof. reflexivity. Qed.

Example bob_has_no_premium_from_another_guild :
  UserController.userHasPremium Samples.premium_config "bob"
    MoreSamples.client_two_guilds
  = false.
Proof. reflexivity. Qed.
